(** * translated-subs: a shallow embedding of [main.py]

    The script lists the [.mp4] files of a folder, lets the user pick some
    of them by number, asks for a source and a target language, builds one
    translation pipeline, and then, for every picked video, extracts the
    audio with ffmpeg, transcribes it with Whisper, translates every
    segment, composes an SRT document and writes it under two names.

    Python strings are modelled as [string] (ASCII case mapping; the tests
    the script makes only look at ASCII characters), dictionaries as
    [gmap], the file system as a [gmap] from paths to contents, exceptions
    as an [Outcome], and the external services (ffmpeg, Whisper, the
    translation pipeline, the operating system) as the fields of an
    environment record. Paths follow [posixpath]. *)

From Stdlib Require Import ZArith QArith Qround Ascii String DecimalString
  DecimalNat.
From stdpp Require Import gmap strings list.

Local Open Scope Z_scope.
Local Open Scope string_scope.
Local Open Scope list_scope.
Local Open Scope stdpp_scope.

(** ** Python string operations used by the script *)

Module Py.

(** [str.lower] on one character (ASCII letters only). *)
Definition lower_ascii (c : ascii) : ascii :=
  let n := N_of_ascii c in
  if ((65 <=? n) && (n <=? 90))%N then ascii_of_N (n + 32) else c.

(** [str.lower]. *)
Fixpoint lower (s : string) : string :=
  match s with
  | EmptyString => EmptyString
  | String c s' => String (lower_ascii c) (lower s')
  end.

(** [s.startswith(p)]. *)
Fixpoint startswith (s p : string) {struct p} : bool :=
  match p, s with
  | EmptyString, _ => true
  | String _ _, EmptyString => false
  | String b p', String a s' => Ascii.eqb a b && startswith s' p'
  end.

(** [s.endswith(suf)]: some tail of [s] is [suf]. *)
Fixpoint endswith (s suf : string) : bool :=
  String.eqb s suf ||
  match s with
  | EmptyString => false
  | String _ s' => endswith s' suf
  end.

(** Characters for which [str.isspace] holds, among the first 128. *)
Definition isspace (c : ascii) : bool :=
  let n := N_of_ascii c in
  ((9 <=? n) && (n <=? 13) || (28 <=? n) && (n <=? 32))%N.

(** [s.lstrip()]. *)
Fixpoint lstrip (s : string) : string :=
  match s with
  | EmptyString => EmptyString
  | String c s' => if isspace c then lstrip s' else s
  end.

(** [s.rstrip()]. *)
Definition rstrip (s : string) : string :=
  String.rev (lstrip (String.rev s)).

(** [s.strip()]. *)
Definition strip (s : string) : string := rstrip (lstrip s).

(** [s.lstrip(ch)] for a one-character argument. *)
Fixpoint lstrip_char (ch : ascii) (s : string) : string :=
  match s with
  | EmptyString => EmptyString
  | String c s' => if Ascii.eqb c ch then lstrip_char ch s' else s
  end.

(** [s.strip(ch)] for a one-character argument. *)
Definition strip_char (ch : ascii) (s : string) : string :=
  String.rev (lstrip_char ch (String.rev (lstrip_char ch s))).

(** [s.split()] with no argument: the maximal runs of non-space
    characters. [cur] is the run being read, reversed. *)
Fixpoint split_go (cur : option string) (s : string) : list string :=
  match s with
  | EmptyString => option_list (String.rev <$> cur)
  | String c s' =>
      if isspace c
      then option_list (String.rev <$> cur) ++ split_go None s'
      else split_go (Some (String c (default EmptyString cur))) s'
  end.

Definition split (s : string) : list string := split_go None s.

(** The value of a decimal digit. *)
Definition digit_of (c : ascii) : option Z :=
  let n := N_of_ascii c in
  if ((48 <=? n) && (n <=? 57))%N then Some (Z.of_N (n - 48)) else None.

(** The digits of an [int(...)] literal: at least one digit, single
    underscores allowed between digits. *)
Fixpoint int_digits (s : string) (acc : Z) (after_digit : bool) : option Z :=
  match s with
  | EmptyString => if after_digit then Some acc else None
  | String c s' =>
      match digit_of c with
      | Some d => int_digits s' (10 * acc + d) true
      | None =>
          if Ascii.eqb c "_" && after_digit
          then int_digits s' acc false
          else None
      end
  end.

(** [int(x)] on a token; [None] stands for [ValueError]. *)
Definition int (x : string) : option Z :=
  match strip x with
  | String "+" r => int_digits r 0 false
  | String "-" r => Z.opp <$> int_digits r 0 false
  | r => int_digits r 0 false
  end.

(** [l[z]] with Python's negative indices; [None] stands for
    [IndexError]. *)
Definition index {A} (l : list A) (z : Z) : option A :=
  let n := Z.of_nat (length l) in
  if ((0 <=? z) && (z <? n))%Z then l !! Z.to_nat z
  else if ((- n <=? z) && (z <? 0))%Z then l !! Z.to_nat (n + z)
  else None.

(** [s.rfind(c)] for a one-character argument; [-1] when absent. *)
Fixpoint rfind_from (i : Z) (c : ascii) (s : string) (last : Z) : Z :=
  match s with
  | EmptyString => last
  | String a s' =>
      rfind_from (i + 1) c s' (if Ascii.eqb a c then i else last)
  end.

Definition rfind (c : ascii) (s : string) : Z := rfind_from 0 c s (-1).

(** [s[i:j]] for [0 <= i <= j]. *)
Definition slice (s : string) (i j : Z) : string :=
  String.substring (Z.to_nat i) (Z.to_nat (j - i)) s.

(** The loop of [genericpath._splitext] that skips leading dots: is there
    a character other than [.] at an index in [[i, i + fuel)]? *)
Fixpoint has_non_dot (fuel : nat) (s : string) (i : Z) : bool :=
  match fuel with
  | O => false
  | S fuel' =>
      if negb (String.eqb (slice s i (i + 1)) ".") then true
      else has_non_dot fuel' s (i + 1)
  end.

(** [os.path.splitext(p)[0]]. *)
Definition splitext_root (p : string) : string :=
  let sepIndex := rfind "/" p in
  let dotIndex := rfind "." p in
  if (sepIndex <? dotIndex)%Z
     && has_non_dot (Z.to_nat (dotIndex - (sepIndex + 1))) p (sepIndex + 1)
  then slice p 0 dotIndex
  else p.

(** [os.path.join(a, b)]. *)
Definition join (a b : string) : string :=
  if startswith b "/" then b
  else if String.eqb a EmptyString || endswith a "/" then a +:+ b
  else a +:+ "/" +:+ b.

End Py.

(** ** Data model *)

(** One element of [result["segments"]]: the fields the script reads.
    Whisper reports times as float seconds; they are rationals here. *)
Record Segment := mkSegment {
  seg_start : Q;
  seg_end : Q;
  seg_text : string
}.

(** [srt.Subtitle(index, start, end, content)]; a [timedelta] is its
    number of microseconds. *)
Record Subtitle := mkSubtitle {
  sub_index : Z;
  sub_start : Z;
  sub_end : Z;
  sub_content : string
}.

(** Exceptions that leave [main]. *)
Inductive exn :=
| SystemExit (code : Z)
| EOFError
| CalledProcessError
| WhisperError
| TranslatorError
| OSError (path : string)
| IndexError.

Inductive Outcome (A : Type) :=
| Ok (a : A)
| Raise (e : exn).
Arguments Ok {A} a.
Arguments Raise {A} e.

(** Calls that leave the process, in the order they are made. A handle
    names the Python object a constructor returned. *)
Inductive Event :=
| EvPipeline (h : nat)
| EvFfmpeg (video audio : string)
| EvLoadModel (h : nat)
| EvTranscribe (h : nat) (audio : string)
| EvTranslate (h : nat) (text src tgt : string)
| EvWrite (path : string)
| EvRemove (path : string).

(** What the script can observe and change. *)
Record World := mkWorld {
  stdin : list string;
  stdout : list string;
  files : gmap string string;
  events : list Event;
  next_handle : nat
}.

(** The services outside the script. [None] is a raised exception (a
    non-zero exit status for ffmpeg). A failing ffmpeg may already have
    created its output file, and a failing write may already have created
    or truncated its file: [ffmpeg_debris] and [write_debris] give what is
    then found at the path, [None] when the path was not touched.
    [listdir] is the listing of a directory that can be read: an
    [os.listdir] that raises is outside this model, and what is proved of
    the front end is proved for a listing that succeeds. *)
Record Env := mkEnv {
  isdir : string -> bool;
  listdir : string -> list string;
  pipeline_ok : bool;
  ffmpeg : string -> option string;
  load_model_ok : bool;
  transcribe : string -> option (list Segment);
  translator : string -> string -> string -> option string;
  writable : string -> bool;
  ffmpeg_debris : string -> option string;
  write_debris : string -> option string
}.

(** What a failed command leaves at [path]. *)
Definition leave (path : string) (debris : option string)
    (fs : gmap string string) : gmap string string :=
  match debris with
  | Some partial => <[path:=partial]> fs
  | None => fs
  end.

(** ** A state and exception monad over [World] *)

Definition M (A : Type) : Type := World -> World * Outcome A.

Definition ret {A} (a : A) : M A := fun w => (w, Ok a).

Definition raise {A} (e : exn) : M A := fun w => (w, Raise e).

Definition bind {A B} (m : M A) (k : A -> M B) : M B :=
  fun w =>
    match m w with
    | (w', Ok a) => k a w'
    | (w', Raise e) => (w', Raise e)
    end.

Notation "'let!' x ':=' m 'in' k" := (bind m (fun x => k))
  (at level 10, x pattern, m at level 100, k at level 200).
Notation "'do!' m 'in' k" := (bind m (fun _ => k))
  (at level 10, m at level 100, k at level 200).

Definition print (line : string) : M unit :=
  fun w => (mkWorld (stdin w) (stdout w ++ [line]) (files w) (events w)
              (next_handle w), Ok tt).

Definition emit (e : Event) : M unit :=
  fun w => (mkWorld (stdin w) (stdout w) (files w) (events w ++ [e])
              (next_handle w), Ok tt).

(** [input()]. *)
Definition input : M string :=
  fun w =>
    match stdin w with
    | [] => (w, Raise EOFError)
    | line :: rest =>
        (mkWorld rest (stdout w) (files w) (events w) (next_handle w), Ok line)
    end.

(** A constructor call: the new object gets the next handle. *)
Definition fresh : M nat :=
  fun w => (mkWorld (stdin w) (stdout w) (files w) (events w)
              (S (next_handle w)), Ok (next_handle w)).

Definition set_files (f : gmap string string -> gmap string string) : M unit :=
  fun w => (mkWorld (stdin w) (stdout w) (f (files w)) (events w)
              (next_handle w), Ok tt).

Definition get_files : M (gmap string string) := fun w => (w, Ok (files w)).

(** [for x in xs: body], threading an accumulator. *)
Fixpoint for_each {A S} (body : A -> S -> M S) (xs : list A) (acc : S) : M S :=
  match xs with
  | [] => ret acc
  | x :: rest => let! acc' := body x acc in for_each body rest acc'
  end.

(** Run a loop that only talks to the console: it reads from the pending
    input lines and returns the lines left and the lines printed. *)
Definition console {A}
    (f : list string -> Outcome A * list string * list string) : M A :=
  fun w =>
    let '(o, rest, out) := f (stdin w) in
    (mkWorld rest (stdout w ++ out) (files w) (events w) (next_handle w), o).

(** ** Times and their SRT rendering *)

(** Round to the nearest integer, ties to the even one. *)
Definition round_half_even (q : Q) : Z :=
  let fl := Qfloor q in
  match Qcompare (q - inject_Z fl)%Q (1 # 2)%Q with
  | Lt => fl
  | Gt => fl + 1
  | Eq => if Z.even fl then fl else fl + 1
  end.

(** [timedelta(seconds=x)]: microseconds.  A segment time is a rational
    here and the product with 10^6 is rounded half to even exactly; CPython
    forms that product on doubles, which can differ from the exact one in
    the last microsecond.  The properties below that speak of a built
    entry use [timedelta] only as the function applied to the segment's own
    time. *)
Definition timedelta (seconds : Q) : Z :=
  round_half_even (seconds * inject_Z 1000000)%Q.

Definition str_of_nat (n : nat) : string :=
  NilZero.string_of_uint (Nat.to_uint n).

Fixpoint zeros (n : nat) : string :=
  match n with
  | O => EmptyString
  | S n' => String "0" (zeros n')
  end.

(** ["%0<width>d" % z]. *)
Definition fmt_d (width : nat) (z : Z) : string :=
  let digits := str_of_nat (Z.abs_nat z) in
  if (z <? 0)%Z
  then String "-" (zeros (width - 1 - String.length digits) +:+ digits)
  else zeros (width - String.length digits) +:+ digits.

(** Modelled from the spec: [srt.timedelta_to_srt_timestamp], of the
    third-party [srt] package, which is not under src/. The spec gives the
    SubRip time code [HH:MM:SS,mmm]; the fields are those of a [timedelta]
    (days, seconds below a day, microseconds below a second). *)
Definition timedelta_to_srt_timestamp (t : Z) : string :=
  let days := (t / 86400000000)%Z in
  let seconds := ((t mod 86400000000) / 1000000)%Z in
  let microseconds := (t mod 1000000)%Z in
  let hrs := (seconds / 3600 + days * 24)%Z in
  let mins := ((seconds mod 3600) / 60)%Z in
  let secs := ((seconds mod 3600) mod 60)%Z in
  let msecs := (microseconds / 1000)%Z in
  fmt_d 2 hrs +:+ ":" +:+ fmt_d 2 mins +:+ ":" +:+ fmt_d 2 secs
    +:+ "," +:+ fmt_d 3 msecs.

Definition eol : string := String "010" EmptyString.

(** The time-range line of one entry. *)
Definition time_range (sub : Subtitle) : string :=
  timedelta_to_srt_timestamp (sub_start sub) +:+ " --> "
    +:+ timedelta_to_srt_timestamp (sub_end sub).

(** Modelled from the spec: [srt.Subtitle.to_srt], of the third-party
    [srt] package, which is not under src/: index line, time-range line,
    text, blank separator. *)
Definition to_srt (sub : Subtitle) : string :=
  fmt_d 0 (sub_index sub) +:+ eol +:+ time_range sub +:+ eol
    +:+ sub_content sub +:+ eol +:+ eol.

(** Modelled from the spec: [srt.compose], of the third-party [srt]
    package, which is not under src/: one entry per subtitle, in order. *)
Definition srt_compose (subtitles : list Subtitle) : string :=
  foldr (fun sub rest => to_srt sub +:+ rest) EmptyString subtitles.

(** ** The script *)

Section Script.

Variable env : Env.

(** [translate_text(text, src_lang, tgt_lang, translator)]. *)
Definition translate_text (text src_lang tgt_lang : string) (tr : nat)
    : M string :=
  do! emit (EvTranslate tr text src_lang tgt_lang) in
  match translator env text src_lang tgt_lang with
  | Some translated => ret translated
  | None => raise TranslatorError
  end.

(** [extract_audio(video_path, audio_path)]: ffmpeg with [-y] and
    [check=True]. *)
Definition extract_audio (video_path audio_path : string) : M unit :=
  do! emit (EvFfmpeg video_path audio_path) in
  match ffmpeg env video_path with
  | Some pcm => set_files (insert audio_path pcm)
  | None =>
      do! set_files (leave audio_path (ffmpeg_debris env video_path)) in
      raise CalledProcessError
  end.

(** [whisper.load_model("medium")]. *)
Definition load_model : M nat :=
  let! h := fresh in
  do! emit (EvLoadModel h) in
  if load_model_ok env then ret h else raise WhisperError.

(** [model_whisper.transcribe(audio_path, verbose=False)["segments"]]. *)
Definition model_transcribe (h : nat) (audio_path : string)
    : M (list Segment) :=
  do! emit (EvTranscribe h audio_path) in
  let! fs := get_files in
  match fs !! audio_path with
  | None => raise WhisperError
  | Some pcm =>
      match transcribe env pcm with
      | Some segments => ret segments
      | None => raise WhisperError
      end
  end.

(** [with open(path, "w") as f: f.write(content)]. *)
Definition write_file (path content : string) : M unit :=
  do! emit (EvWrite path) in
  if writable env path then set_files (insert path content)
  else
    do! set_files (leave path (write_debris env path)) in
    raise (OSError path).

(** [os.remove(path)]. *)
Definition os_remove (path : string) : M unit :=
  do! emit (EvRemove path) in
  let! fs := get_files in
  match fs !! path with
  | Some _ => set_files (delete path)
  | None => raise (OSError path)
  end.

(** Lines 169-172: every segment's text is replaced, in order, by the
    translation of its stripped text. [done] holds the segments already
    rewritten. *)
Definition translate_segment (src_lang tgt_lang : string) (tr : nat)
    (segment : Segment) (done : list Segment) : M (list Segment) :=
  let original_text := Py.strip (seg_text segment) in
  let! translated_text := translate_text original_text src_lang tgt_lang tr in
  ret (done ++ [mkSegment (seg_start segment) (seg_end segment) translated_text])%list.

Definition translate_segments (src_lang tgt_lang : string) (tr : nat)
    (transcript_segments : list Segment) : M (list Segment) :=
  for_each (translate_segment src_lang tgt_lang tr) transcript_segments [].

(** Lines 175-183: [enumerate(transcript_segments, start=idx)]. *)
Fixpoint subtitles_from (idx : Z) (segs : list Segment) : list Subtitle :=
  match segs with
  | [] => []
  | seg :: rest =>
      mkSubtitle idx (timedelta (seg_start seg)) (timedelta (seg_end seg))
        (seg_text seg) :: subtitles_from (idx + 1) rest
  end.

Definition build_subtitles (transcript_segments : list Segment)
    : list Subtitle :=
  subtitles_from 1 transcript_segments.

(** Line 190. *)
Definition iso_map : gmap string string :=
  list_to_map [("en", "eng"); ("it", "ita"); ("fr", "fra"); ("es", "spa");
               ("de", "deu")].

(** [iso_map.get(tgt_lang, tgt_lang)]. *)
Definition alt_lang_code (tgt_lang : string) : string :=
  default tgt_lang (iso_map !! tgt_lang).

Definition srt_filename (base_name code : string) : string :=
  base_name +:+ "." +:+ code +:+ ".srt".

Definition srt_path (folder base_name tgt_lang : string) : string :=
  Py.join folder (srt_filename base_name tgt_lang).

Definition alt_srt_path (folder base_name tgt_lang : string) : string :=
  Py.join folder (srt_filename base_name (alt_lang_code tgt_lang)).

Definition audio_path (folder base_name : string) : string :=
  Py.join folder (base_name +:+ ".wav").

(** Lines 196-199. *)
Definition write_subtitles (folder base_name tgt_lang srt_content : string)
    : M unit :=
  do! write_file (srt_path folder base_name tgt_lang) srt_content in
  write_file (alt_srt_path folder base_name tgt_lang) srt_content.

(** Lines 174-199: from the translated segments to the two files. *)
Definition assemble (folder base_name tgt_lang : string)
    (transcript_segments : list Segment) : M unit :=
  let subtitles := build_subtitles transcript_segments in
  let srt_content := srt_compose subtitles in
  write_subtitles folder base_name tgt_lang srt_content.

(** [processed_videos] and [generated_subtitles]. *)
Definition Report : Type := list string * list (string * string).

(** The body of the loop of lines 151-205. *)
Definition process_video (folder src_lang tgt_lang : string) (tr : nat)
    (file : string) (report : Report) : M Report :=
  let video_path := Py.join folder file in
  let base_name := Py.splitext_root file in
  do! print (eol +:+ "Processing video: " +:+ file) in
  let audio := audio_path folder base_name in
  do! print "Extracting audio from video..." in
  do! extract_audio video_path audio in
  do! print "Transcribing audio using Whisper..." in
  let! model_whisper := load_model in
  let! transcript_segments := model_transcribe model_whisper audio in
  do! print "Translating transcript segments..." in
  let! translated := translate_segments src_lang tgt_lang tr transcript_segments in
  do! assemble folder base_name tgt_lang translated in
  do! os_remove audio in
  ret ((report.1 ++ [file])%list,
       (report.2 ++ [(srt_path folder base_name tgt_lang,
                      alt_srt_path folder base_name tgt_lang)])%list).

(** Lines 147-205. *)
Definition process_all (folder src_lang tgt_lang : string) (tr : nat)
    (selected_files : list string) : M Report :=
  for_each (process_video folder src_lang tgt_lang tr) selected_files ([], []).

(** Line 88. *)
Definition video_files_of (listing : list string) : list string :=
  List.filter (fun f => Py.endswith (Py.lower f) ".mp4") listing.

(** Lines 95-96. *)
Fixpoint listing_lines (idx : nat) (fs : list string) : list string :=
  match fs with
  | [] => []
  | file :: rest =>
      (str_of_nat idx +:+ ". " +:+ file) :: listing_lines (S idx) rest
  end.

Definition select_prompt : string :=
  "Enter the numbers of the files to process, separated by spaces:".

(** Line 106. *)
Definition out_of_range (n : nat) (idx : Z) : bool :=
  ((idx <? 1) || (Z.of_nat n <? idx))%Z.

(** Lines 98-109, on the pending input lines; [n] is [len(video_files)]. *)
Fixpoint selection_loop (n : nat) (lines : list string)
    : Outcome (list Z) * list string * list string :=
  match lines with
  | [] => (Raise EOFError, [], [select_prompt])
  | line :: rest =>
      let selected := Py.split (Py.strip line) in
      match mapM Py.int selected with
      | None =>
          let '(o, rest', out) := selection_loop n rest in
          (o, rest',
           select_prompt
             :: "Invalid input. Please enter numbers separated by spaces."
             :: out)
      | Some selected_indices =>
          if existsb (out_of_range n) selected_indices
          then
            let '(o, rest', out) := selection_loop n rest in
            (o, rest',
             select_prompt
               :: "One or more numbers are out of range. Please try again."
               :: out)
          else (Ok selected_indices, rest, [select_prompt])
      end
  end.

(** Line 111; [None] stands for [IndexError]. *)
Definition select_files (video_files : list string)
    (selected_indices : list Z) : option (list string) :=
  mapM (fun i => Py.index video_files (i - 1)) selected_indices.

(** Lines 114-120. *)
Definition languages : list (string * string) :=
  [("it", "Italian"); ("en", "English"); ("fr", "French");
   ("es", "Spanish"); ("de", "German")].

Definition is_language (code : string) : bool :=
  bool_decide (code ∈ languages.*1).

(** Lines 125-136, on the pending input lines. *)
Fixpoint language_loop (lines : list string)
    : Outcome (string * string) * list string * list string :=
  match lines with
  | [] => (Raise EOFError, [], ["Enter the source language code:"])
  | l1 :: rest =>
      let src_lang := Py.lower (Py.strip l1) in
      if negb (is_language src_lang)
      then
        let '(o, rest', out) := language_loop rest in
        (o, rest',
         "Enter the source language code:"
           :: "Invalid source language code. Please try again." :: out)
      else
        match rest with
        | [] =>
            (Raise EOFError, [],
             ["Enter the source language code:";
              "Enter the target language code:"])
        | l2 :: rest2 =>
            let tgt_lang := Py.lower (Py.strip l2) in
            if negb (is_language tgt_lang)
            then
              let '(o, rest', out) := language_loop rest2 in
              (o, rest',
               "Enter the source language code:"
                 :: "Enter the target language code:"
                 :: "Invalid target language code. Please try again." :: out)
            else
              (Ok (src_lang, tgt_lang), rest2,
               ["Enter the source language code:";
                "Enter the target language code:"])
        end
  end.

(** Lines 139-145. *)
Definition init_translator : M nat :=
  let! h := fresh in
  do! emit (EvPipeline h) in
  if pipeline_ok env then ret h
  else
    do! print "Error initializing the translation model:" in
    do! print "Please ensure that you have access to the 'facebook/seamless-m4t-v2-large' model." in
    do! print "If it is a private repository, login with 'huggingface-cli login'." in
    raise (SystemExit 1).

Definition print_all (lines : list string) : M unit :=
  for_each (fun line _ => print line) lines tt.

(** Lines 208-217. *)
Definition final_report (report : Report) : M unit :=
  do! print (eol +:+ "Processing completed.") in
  do! print "Processed videos:" in
  do! print_all report.1 in
  do! print (eol +:+ "Generated subtitle files:") in
  do! print_all (map (fun paths => paths.1 +:+ " and " +:+ paths.2) report.2) in
  print (eol +:+ "Subtitles can be enabled in any media player.").

Definition dquote : ascii := ascii_of_N 34.
Definition squote : ascii := ascii_of_N 39.

(** Lines 79-136: what the dialogue yields, the folder, the selected
    files and the two language codes. *)
Definition front_end : M (string * list string * (string * string)) :=
  do! print "Enter the path to the folder with video files:" in
  let! line := input in
  let folder := Py.strip_char squote (Py.strip_char dquote (Py.strip line)) in
  if negb (isdir env folder)
  then
    do! print "The specified path is not a valid directory." in
    raise (SystemExit 1)
  else
    let video_files := video_files_of (listdir env folder) in
    match video_files with
    | [] =>
        do! print "No .mp4 files found in the specified directory." in
        raise (SystemExit 1)
    | _ :: _ =>
        do! print "Available video files:" in
        do! print_all (listing_lines 1 video_files) in
        let! selected_indices := console (selection_loop (length video_files)) in
        match select_files video_files selected_indices with
        | None => raise IndexError
        | Some selected_files =>
            do! print "Available languages:" in
            do! print_all (map (fun l => l.1 +:+ " - " +:+ l.2) languages) in
            let! langs := console language_loop in
            ret (folder, selected_files, langs)
        end
    end.

(** Lines 139-217. *)
Definition back_end (folder : string) (selected_files : list string)
    (src_lang tgt_lang : string) : M unit :=
  let! tr := init_translator in
  let! report := process_all folder src_lang tgt_lang tr selected_files in
  final_report report.

(** Lines 78-217. *)
Definition main : M unit :=
  let! choice := front_end in
  back_end choice.1.1 choice.1.2 choice.2.1 choice.2.2.

End Script.

(** * The checks made before [main] *)

(** What lines 8-56 ask of the machine the script runs on. An import
    that does not succeed raises [ImportError] or, when
    [raises_import_error] is [false] for the module, some other
    exception. *)
Record Host := mkHost {
  importable : string -> bool;
  raises_import_error : string -> bool;
  whisper_has_load_model : bool;
  command_ok : list string -> bool
}.

(** Line 10. *)
Definition required_modules : list string :=
  ["torch"; "fairseq"; "whisper"; "srt"; "tqdm"].

(** Lines 12-17: the loop that appends every module whose import raises
    [ImportError]. Another exception is not caught: the loop ends there,
    [inl] naming the module. *)
Fixpoint collect_missing (host : Host) (modules missing : list string)
    : string + list string :=
  match modules with
  | [] => inr missing
  | module :: rest =>
      if importable host module then collect_missing host rest missing
      else if raises_import_error host module
      then collect_missing host rest (missing ++ [module])
      else inl module
  end.

(** [sep.join(items)]. *)
Fixpoint str_join (sep : string) (items : list string) : string :=
  match items with
  | [] => EmptyString
  | [item] => item
  | item :: rest => item +:+ sep +:+ str_join sep rest
  end.

(** Lines 40-48: [check_command(command)]; every exception of
    [subprocess.run] is turned into [False]. *)
Definition check_command (host : Host) (command : string) : bool :=
  if String.eqb command "ffsubsync"
  then command_ok host [command; "--help"]
  else command_ok host [command; "-version"].

(** How the lines before [main] end: they fall through to [main], call
    [sys.exit], let the [ImportError] of line 28 escape, or let another
    exception raised by the import of [module] escape. *)
Inductive Startup :=
| Proceed
| Exit (code : Z)
| ImportError (module : string)
| Crash (module : string).

(** Lines 10-56: the lines printed and how the checks end. *)
Definition startup (host : Host) : list string * Startup :=
  match collect_missing host required_modules [] with
  | inl module => ([], Crash module)
  | inr ((_ :: _) as missing_modules) =>
      (["Missing Python dependencies: " +:+ str_join ", " missing_modules;
        "Please install them using: pip install "
          +:+ str_join " " missing_modules],
       Exit 1)
  | inr [] =>
      if negb (importable host "transformers")
      then
        ([], if raises_import_error host "transformers"
             then ImportError "transformers" else Crash "transformers")
      else if negb (whisper_has_load_model host)
      then
        (["Error: whisper.load_model not found.";
          "It appears that you have installed the incorrect 'whisper' package.";
          "Please uninstall it and install the official OpenAI Whisper library using:";
          "pip uninstall whisper";
          "pip install git+https://github.com/openai/whisper.git"],
         Exit 1)
      else if negb (check_command host "ffmpeg")
      then (["Missing system dependency: ffmpeg"], Exit 1)
      else if negb (check_command host "ffsubsync")
      then (["Missing system dependency: ffsubsync"], Exit 1)
      else ([], Proceed)
  end.

(** How a run of the whole file ends. *)
Inductive ScriptEnd :=
| Stopped (s : Startup)
| Ran (o : Outcome unit).

(** Lines 8-220: the checks, then [main] when they pass. *)
Definition script (host : Host) (env : Env) (w : World) : World * ScriptEnd :=
  let '(out, s) := startup host in
  let w1 := mkWorld (stdin w) (stdout w ++ out) (files w) (events w)
              (next_handle w) in
  match s with
  | Proceed => let '(w', o) := main env w1 in (w', Ran o)
  | _ => (w1, Stopped s)
  end.

(** Line 82: the folder named by the first input line. *)
Definition folder_of (line : string) : string :=
  Py.strip_char squote (Py.strip_char dquote (Py.strip line)).

(** The decision of lines 101-108 on one input line: the indices when the
    line is accepted. *)
Definition accepted (n : nat) (line : string) : option (list Z) :=
  match mapM Py.int (Py.split (Py.strip line)) with
  | Some idxs => if existsb (out_of_range n) idxs then None else Some idxs
  | None => None
  end.

(** The paths of the two subtitle files of [file]. *)
Definition output_pair (folder tgt_lang file : string) : string * string :=
  (srt_path folder (Py.splitext_root file) tgt_lang,
   alt_srt_path folder (Py.splitext_root file) tgt_lang).

(** The lines of lines 208-217 for a report. *)
Definition report_lines (report : Report) : list string :=
  [eol +:+ "Processing completed."; "Processed videos:"] ++ report.1
    ++ [eol +:+ "Generated subtitle files:"]
    ++ map (fun paths => paths.1 +:+ " and " +:+ paths.2) report.2
    ++ [eol +:+ "Subtitles can be enabled in any media player."].

(** No character of [s] is [c]. *)
Fixpoint lacks (c : ascii) (s : string) : bool :=
  match s with
  | EmptyString => true
  | String a s' => negb (Ascii.eqb a c) && lacks c s'
  end.

(** Every character of [s] is [c]. *)
Fixpoint all_char (c : ascii) (s : string) : bool :=
  match s with
  | EmptyString => true
  | String a s' => Ascii.eqb a c && all_char c s'
  end.

(** Every character of [s] is white space. *)
Fixpoint blank (s : string) : bool :=
  match s with
  | EmptyString => true
  | String c s' => Py.isspace c && blank s'
  end.

(** Every character of [s] is a decimal digit. *)
Fixpoint all_digits (s : string) : bool :=
  match s with
  | EmptyString => true
  | String c s' =>
      match Py.digit_of c with Some _ => true | None => false end
      && all_digits s'
  end.

(** No character of [s] is white space. *)
Fixpoint no_space (s : string) : bool :=
  match s with
  | EmptyString => true
  | String c s' => negb (Py.isspace c) && no_space s'
  end.

Definition first_char (s : string) : option ascii :=
  match s with
  | EmptyString => None
  | String c _ => Some c
  end.

Definition last_char (s : string) : option ascii := first_char (String.rev s).

(** A path that neither starts nor ends with white space or a quote. *)
Definition plain (p : string) : Prop :=
  forall c, first_char p = Some c \/ last_char p = Some c ->
    Py.isspace c = false /\ c <> dquote /\ c <> squote.

(** [p] between two quote characters [q]. *)
Definition quoted (q : ascii) (p : string) : string :=
  String q (p +:+ String q EmptyString).

(** * Vocabulary of the properties *)


(** The spec's words for line 88: the name ends with [.mp4], letters
    compared without regard to case. *)
Definition is_mp4_name (f : string) : Prop :=
  exists stem c1 c2,
    f = stem +:+ String "." (String c1 (String c2 "4"))
    /\ (c1 = "m"%char \/ c1 = "M"%char)
    /\ (c2 = "p"%char \/ c2 = "P"%char).

Definition in_range (n : nat) (i : Z) : Prop := (1 <= i <= Z.of_nat n)%Z.

Definition add_events (evs : list Event) (w : World) : World :=
  mkWorld (stdin w) (stdout w) (files w) (events w ++ evs) (next_handle w).

Definition is_translate (tr : nat) (e : Event) : bool :=
  match e with
  | EvTranslate h _ _ _ => Nat.eqb h tr
  | _ => false
  end.

Definition is_pipeline (e : Event) : bool :=
  match e with EvPipeline _ => true | _ => false end.

Definition is_ffmpeg (e : Event) : bool :=
  match e with EvFfmpeg _ _ => true | _ => false end.

Definition is_whisper (e : Event) : bool :=
  match e with EvLoadModel _ | EvTranscribe _ _ => true | _ => false end.

Definition is_remove (e : Event) : bool :=
  match e with EvRemove _ => true | _ => false end.

Definition uses_translator (tr : nat) (e : Event) : bool :=
  match e with
  | EvTranslate h _ _ _ => Nat.eqb h tr
  | _ => true
  end.

(** The Whisper calls of a batch over [sel] whose first model gets the
    handle [h]: one load per video, used by the one transcription that
    follows it. *)
Fixpoint whisper_trace (folder : string) (h : nat) (sel : list string)
    : list Event :=
  match sel with
  | [] => []
  | file :: rest =>
      EvLoadModel h
        :: EvTranscribe h (audio_path folder (Py.splitext_root file))
        :: whisper_trace folder (S h) rest
  end.

(** The handles of the models loaded, in order. *)
Definition loaded_handles (evs : list Event) : list nat :=
  omap (fun e => match e with EvLoadModel h => Some h | _ => None end) evs.

(** The spec's words for the order of a subtitle document: start and end
    times do not decrease from one entry to the next. *)
Fixpoint non_decreasing (segs : list Segment) : bool :=
  match segs with
  | [] => true
  | a :: rest =>
      match rest with
      | [] => true
      | b :: _ =>
          Qle_bool (seg_start a) (seg_start b)
          && Qle_bool (seg_end a) (seg_end b) && non_decreasing rest
      end
  end.

(** The character in front of the last three of a time code. *)
Definition ms_separator (ts : string) : option ascii :=
  String.get (String.length ts - 4) ts.

Fixpoint has_dot (s : string) : bool :=
  match s with
  | EmptyString => false
  | String c s' => Ascii.eqb c "." || has_dot s'
  end.

Section TranslationVocabulary.

Variable env : Env.
Variables src_lang tgt_lang : string.
Variable tr : nat.

(** The calls of the translation loop over [segs]. *)
Definition translate_events (segs : list Segment) : list Event :=
  map (fun s => EvTranslate tr (Py.strip (seg_text s)) src_lang tgt_lang) segs.

(** [s'] is [s] with its text replaced by the translation of its
    stripped text. *)
Definition translated (s s' : Segment) : Prop :=
  seg_start s' = seg_start s /\ seg_end s' = seg_end s
  /\ translator env (Py.strip (seg_text s)) src_lang tgt_lang
     = Some (seg_text s').

End TranslationVocabulary.

Section RunVocabulary.

Variable env : Env.
Variables folder src_lang tgt_lang : string.
Variable tr : nat.

Definition progress1 (file : string) : list string :=
  [eol +:+ "Processing video: " +:+ file; "Extracting audio from video..."].
Definition progress2 (file : string) : list string :=
  progress1 file ++ ["Transcribing audio using Whisper..."].
Definition progress3 (file : string) : list string :=
  progress2 file ++ ["Translating transcript segments..."].

(** The runs of the loop body on [file], one constructor per way it can
    end: the lines printed, the files afterwards, the calls made, the next
    handle and the outcome. *)
Inductive video_run (file : string) (report : Report) (w : World)
  : list string -> gmap string string -> list Event -> nat
    -> Outcome Report -> Prop :=
| run_extract_fails :
    let base := Py.splitext_root file in
    let audio := audio_path folder base in
    ffmpeg env (Py.join folder file) = None ->
    video_run file report w (progress1 file)
      (leave audio (ffmpeg_debris env (Py.join folder file)) (files w))
      [EvFfmpeg (Py.join folder file) audio] (next_handle w)
      (Raise CalledProcessError)
| run_load_fails pcm :
    let base := Py.splitext_root file in
    let audio := audio_path folder base in
    let h := next_handle w in
    ffmpeg env (Py.join folder file) = Some pcm ->
    load_model_ok env = false ->
    video_run file report w (progress2 file) (<[audio:=pcm]> (files w))
      [EvFfmpeg (Py.join folder file) audio; EvLoadModel h] (S h)
      (Raise WhisperError)
| run_transcribe_fails pcm :
    let base := Py.splitext_root file in
    let audio := audio_path folder base in
    let h := next_handle w in
    ffmpeg env (Py.join folder file) = Some pcm ->
    load_model_ok env = true ->
    transcribe env pcm = None ->
    video_run file report w (progress2 file) (<[audio:=pcm]> (files w))
      [EvFfmpeg (Py.join folder file) audio; EvLoadModel h;
       EvTranscribe h audio] (S h)
      (Raise WhisperError)
| run_translate_fails pcm segs evs :
    let base := Py.splitext_root file in
    let audio := audio_path folder base in
    let h := next_handle w in
    ffmpeg env (Py.join folder file) = Some pcm ->
    load_model_ok env = true ->
    transcribe env pcm = Some segs ->
    Forall (fun e => is_translate tr e = true) evs ->
    video_run file report w (progress3 file) (<[audio:=pcm]> (files w))
      ([EvFfmpeg (Py.join folder file) audio; EvLoadModel h;
        EvTranscribe h audio] ++ evs) (S h)
      (Raise TranslatorError)
| run_write1_fails pcm segs segs' :
    let base := Py.splitext_root file in
    let audio := audio_path folder base in
    let h := next_handle w in
    let srt := srt_path folder base tgt_lang in
    ffmpeg env (Py.join folder file) = Some pcm ->
    load_model_ok env = true ->
    transcribe env pcm = Some segs ->
    Forall2 (translated env src_lang tgt_lang) segs segs' ->
    writable env srt = false ->
    video_run file report w (progress3 file)
      (leave srt (write_debris env srt) (<[audio:=pcm]> (files w)))
      ([EvFfmpeg (Py.join folder file) audio; EvLoadModel h;
        EvTranscribe h audio]
       ++ translate_events src_lang tgt_lang tr segs ++ [EvWrite srt]) (S h)
      (Raise (OSError srt))
| run_write2_fails pcm segs segs' :
    let base := Py.splitext_root file in
    let audio := audio_path folder base in
    let h := next_handle w in
    let srt := srt_path folder base tgt_lang in
    let alt := alt_srt_path folder base tgt_lang in
    let content := srt_compose (build_subtitles segs') in
    ffmpeg env (Py.join folder file) = Some pcm ->
    load_model_ok env = true ->
    transcribe env pcm = Some segs ->
    Forall2 (translated env src_lang tgt_lang) segs segs' ->
    writable env srt = true ->
    writable env alt = false ->
    video_run file report w (progress3 file)
      (leave alt (write_debris env alt)
         (<[srt:=content]> (<[audio:=pcm]> (files w))))
      ([EvFfmpeg (Py.join folder file) audio; EvLoadModel h;
        EvTranscribe h audio]
       ++ translate_events src_lang tgt_lang tr segs
       ++ [EvWrite srt; EvWrite alt]) (S h)
      (Raise (OSError alt))
| run_ok pcm segs segs' :
    let base := Py.splitext_root file in
    let audio := audio_path folder base in
    let h := next_handle w in
    let srt := srt_path folder base tgt_lang in
    let alt := alt_srt_path folder base tgt_lang in
    let content := srt_compose (build_subtitles segs') in
    ffmpeg env (Py.join folder file) = Some pcm ->
    load_model_ok env = true ->
    transcribe env pcm = Some segs ->
    Forall2 (translated env src_lang tgt_lang) segs segs' ->
    writable env srt = true ->
    writable env alt = true ->
    video_run file report w (progress3 file)
      (delete audio
         (<[alt:=content]> (<[srt:=content]> (<[audio:=pcm]> (files w)))))
      ([EvFfmpeg (Py.join folder file) audio; EvLoadModel h;
        EvTranscribe h audio]
       ++ translate_events src_lang tgt_lang tr segs
       ++ [EvWrite srt; EvWrite alt; EvRemove audio]) (S h)
      (Ok (report.1 ++ [file], report.2 ++ [(srt, alt)])).

End RunVocabulary.

(** ** Sample services and inputs *)

Definition demo_segments : list Segment :=
  [mkSegment 0 (5 # 2) " Ciao "; mkSegment (5 # 2) 5 "come stai"].

(** A folder [/v] with two videos; ffmpeg cannot read [bad.mp4]. *)
Definition demo_env : Env :=
  mkEnv (fun _ => true) (fun _ => ["bad.mp4"; "notes.txt"; "Clip1.MP4"])
    true
    (fun v => if String.eqb v "/v/Clip1.MP4" then Some "pcm" else None)
    true
    (fun _ => Some demo_segments)
    (fun t _ _ => if String.eqb t "Ciao" then Some "Hello"
                  else Some "how are you")
    (fun _ => true) (fun _ => Some "riff") (fun _ => Some EmptyString).

Definition world0 (lines : list string) : World := mkWorld lines [] ∅ [] 0.

(** The same folder, with a translation pipeline that cannot be built. *)
Definition demo_env_no_pipeline : Env :=
  mkEnv (isdir demo_env) (listdir demo_env) false (ffmpeg demo_env)
    (load_model_ok demo_env) (transcribe demo_env) (translator demo_env)
    (writable demo_env) (ffmpeg_debris demo_env) (write_debris demo_env).

Definition demo_lines : list string := ["'/v'"; "2"; "it"; "en"].

(** The same services, with a translator that rejects every request. *)
Definition demo_env_no_translation : Env :=
  mkEnv (isdir demo_env) (listdir demo_env) true (ffmpeg demo_env)
    (load_model_ok demo_env) (transcribe demo_env) (fun _ _ _ => None)
    (writable demo_env) (ffmpeg_debris demo_env) (write_debris demo_env).

Definition out_of_order_segments : list Segment :=
  [mkSegment 5 6 "later"; mkSegment 1 2 "earlier"].


(** A machine on which every check passes, and one without two of the
    modules. *)
Definition demo_host : Host :=
  mkHost (fun _ => true) (fun _ => true) true (fun _ => true).

Definition demo_host_missing : Host :=
  mkHost (fun m => negb (String.eqb m "fairseq" || String.eqb m "tqdm"))
    (fun _ => true) true (fun _ => false).

(** The same services over a folder without any video. *)
Definition demo_env_no_video : Env :=
  mkEnv (isdir demo_env) (fun _ => ["notes.txt"]) true (ffmpeg demo_env)
    true (transcribe demo_env) (translator demo_env) (writable demo_env)
    (ffmpeg_debris demo_env) (write_debris demo_env).

(** The same services, with a translator that only knows one phrase. *)
Definition demo_env_one_phrase : Env :=
  mkEnv (isdir demo_env) (listdir demo_env) true (ffmpeg demo_env)
    (load_model_ok demo_env) (transcribe demo_env)
    (fun t _ _ => if String.eqb t "Ciao" then Some "Hello" else None)
    (writable demo_env) (ffmpeg_debris demo_env) (write_debris demo_env).


(** * Properties *)

(** ** Sample evaluations *)

Example lower_MP4 : Py.lower "Clip.MP4" = "clip.mp4".
Proof. reflexivity. Qed.

Example split_ex : Py.split " 1  3 2 " = ["1"; "3"; "2"].
Proof. reflexivity. Qed.

Example int_ex : Py.int "1_0" = Some 10%Z /\ Py.int "-3" = Some (-3)%Z
  /\ Py.int "x" = None /\ Py.int EmptyString = None /\ Py.int "1__0" = None.
Proof. repeat split; reflexivity. Qed.

Example splitext_ex : Py.splitext_root "clip1.mp4" = "clip1"
  /\ Py.splitext_root ".mp4" = ".mp4" /\ Py.splitext_root "a.b.MP4" = "a.b".
Proof. repeat split; reflexivity. Qed.

Example join_ex : Py.join "/v" "a.wav" = "/v/a.wav"
  /\ Py.join "/v/" "a.wav" = "/v/a.wav" /\ Py.join "/v" "/a.wav" = "/a.wav".
Proof. repeat split; reflexivity. Qed.

Example index_ex : Py.index ["a"; "b"; "c"] 0 = Some "a"
  /\ Py.index ["a"; "b"; "c"] (-1) = Some "c"
  /\ Py.index ["a"; "b"; "c"] 3 = None.
Proof. repeat split; reflexivity. Qed.

Example timedelta_ex : timedelta (5 # 2) = 2500000%Z
  /\ timedelta (1 # 3) = 333333%Z /\ timedelta (5 # 10000000) = 0%Z
  /\ timedelta (15 # 10000000) = 2%Z.
Proof. repeat split; reflexivity. Qed.

Example timestamp_ex : timedelta_to_srt_timestamp 3723004999 = "01:02:03,004".
Proof. reflexivity. Qed.

(** The scenario of the spec: one video selected, Italian to English, two
    segments. Both subtitle files hold the two translated entries with the
    original times, and the audio file is gone. *)
Example main_ex :
  let r := main demo_env (world0 ["'/v'"; "2"; "it"; "en"]) in
  r.2 = Ok tt
  /\ files r.1 !! "/v/Clip1.en.srt" = files r.1 !! "/v/Clip1.eng.srt"
  /\ files r.1 !! "/v/Clip1.en.srt"
     = Some (srt_compose
               [mkSubtitle 1 0 2500000 "Hello";
                mkSubtitle 2 2500000 5000000 "how are you"])
  /\ files r.1 !! "/v/Clip1.wav" = None
  /\ events r.1
     = [EvPipeline 0; EvFfmpeg "/v/Clip1.MP4" "/v/Clip1.wav"; EvLoadModel 1;
        EvTranscribe 1 "/v/Clip1.wav"; EvTranslate 0 "Ciao" "it" "en";
        EvTranslate 0 "come stai" "it" "en"; EvWrite "/v/Clip1.en.srt";
        EvWrite "/v/Clip1.eng.srt"; EvRemove "/v/Clip1.wav"].
Proof. vm_compute. repeat split. Qed.

(** ** Strings *)

Lemma append_nil_l (s : string) : EmptyString +:+ s = s.
Proof. reflexivity. Qed.

Lemma append_cons (c : ascii) (s t : string) :
  String c s +:+ t = String c (s +:+ t).
Proof. reflexivity. Qed.

Lemma append_nil_r (s : string) : s +:+ EmptyString = s.
Proof. induction s as [|c s IH]; [reflexivity|]. rewrite append_cons. by f_equal. Qed.

Lemma append_assoc (a b c : string) : (a +:+ b) +:+ c = a +:+ (b +:+ c).
Proof.
  induction a as [|x a IH]; [reflexivity|].
  rewrite !append_cons. by f_equal.
Qed.

Lemma length_append (a b : string) :
  String.length (a +:+ b) = (String.length a + String.length b)%nat.
Proof.
  induction a as [|x a IH]; [reflexivity|].
  rewrite append_cons. simpl. by rewrite IH.
Qed.

Lemma endswith_spec (s suf : string) :
  Py.endswith s suf = true <-> exists pre, s = pre +:+ suf.
Proof.
  induction s as [|c s IH].
  - cbn [Py.endswith]. rewrite orb_false_r, String.eqb_eq. split.
    + intros <-. by exists EmptyString.
    + intros [[|x pre] H]; [done|]. rewrite append_cons in H. discriminate.
  - cbn [Py.endswith]. rewrite orb_true_iff, String.eqb_eq, IH. split.
    + intros [<- | [pre ->]]; [by exists EmptyString|].
      exists (String c pre). by rewrite append_cons.
    + intros [[|x pre] H]; [by left|].
      rewrite append_cons in H. injection H as -> ->. right. by exists pre.
Qed.

Lemma startswith_append (b t : string) (c : ascii) :
  Py.startswith (String c b +:+ t) "/" = Py.startswith (String c b) "/".
Proof. rewrite append_cons. reflexivity. Qed.

(** [os.path.join] puts its second argument at the end. *)
Lemma join_suffix (a b : string) : exists pre, Py.join a b = pre +:+ b.
Proof.
  unfold Py.join. destruct (Py.startswith b "/").
  - by exists EmptyString.
  - destruct (_ || _).
    + by exists a.
    + exists (a +:+ "/"). by rewrite append_assoc.
Qed.

(** The directory part [os.path.join] puts in front only depends on
    whether the file name starts with a separator. *)
Lemma join_same_head (a b1 b2 : string) :
  Py.startswith b1 "/" = Py.startswith b2 "/" ->
  Py.join a b1 = Py.join a b2 -> b1 = b2.
Proof.
  unfold Py.join. intros ->. destruct (Py.startswith b2 "/"); [done|].
  destruct (_ || _); intros H.
  - by apply String.app_inj in H.
  - apply String.app_inj in H. by apply (String.app_inj "/") in H.
Qed.

Lemma lower_ascii_dot (c : ascii) : Py.lower_ascii c = "."%char -> c = "."%char.
Proof. destruct c as [[] [] [] [] [] [] [] []]; vm_compute; congruence. Qed.

Lemma lower_ascii_4 (c : ascii) : Py.lower_ascii c = "4"%char -> c = "4"%char.
Proof. destruct c as [[] [] [] [] [] [] [] []]; vm_compute; congruence. Qed.

Lemma lower_ascii_m (c : ascii) :
  Py.lower_ascii c = "m"%char -> c = "m"%char \/ c = "M"%char.
Proof.
  destruct c as [[] [] [] [] [] [] [] []]; vm_compute; intros H;
    first [discriminate H | by left | by right].
Qed.

Lemma lower_ascii_p (c : ascii) :
  Py.lower_ascii c = "p"%char -> c = "p"%char \/ c = "P"%char.
Proof.
  destruct c as [[] [] [] [] [] [] [] []]; vm_compute; intros H;
    first [discriminate H | by left | by right].
Qed.

Lemma lower_is_mp4 (f : string) : Py.lower f = ".mp4" -> is_mp4_name f.
Proof.
  destruct f as [|c0 [|c1 [|c2 [|c3 [|c4 f]]]]]; simpl; try discriminate.
  intros H. injection H as H0 H1 H2 H3.
  apply lower_ascii_dot in H0 as ->. apply lower_ascii_4 in H3 as ->.
  apply lower_ascii_m in H1. apply lower_ascii_p in H2.
  by exists EmptyString, c1, c2.
Qed.

Lemma endswith_lower_mp4 (f : string) :
  Py.endswith (Py.lower f) ".mp4" = true <-> is_mp4_name f.
Proof.
  induction f as [|c f IH].
  - split; [discriminate|]. intros ([|x stem] & c1 & c2 & H & _); discriminate H.
  - cbn [Py.lower Py.endswith]. rewrite orb_true_iff, String.eqb_eq, IH. split.
    + intros [H | (stem & c1 & c2 & -> & H)].
      * by apply (lower_is_mp4 (String c f)).
      * exists (String c stem), c1, c2. by rewrite append_cons.
    + intros ([|x stem] & c1 & c2 & H & H1 & H2).
      * left. rewrite append_nil_l in H. injection H as -> ->.
        by destruct H1 as [-> | ->], H2 as [-> | ->].
      * right. rewrite append_cons in H. injection H as -> ->.
        by exists stem, c1, c2.
Qed.

(** ** Selection *)

Lemma out_of_range_false (n : nat) (i : Z) :
  out_of_range n i = false <-> in_range n i.
Proof. unfold out_of_range, in_range. rewrite orb_false_iff, !Z.ltb_ge. lia. Qed.

Lemma existsb_out_of_range (n : nat) (idxs : list Z) :
  existsb (out_of_range n) idxs = false <-> Forall (in_range n) idxs.
Proof.
  induction idxs as [|i idxs IH]; simpl.
  - split; [by constructor | done].
  - rewrite orb_false_iff, IH, out_of_range_false, Forall_cons. tauto.
Qed.

Lemma index_elem_of {A} (l : list A) (z : Z) (x : A) :
  Py.index l z = Some x -> x ∈ l.
Proof.
  unfold Py.index. intros H.
  repeat case_match; try discriminate; by eapply list_elem_of_lookup_2.
Qed.

Lemma index_in_range {A} (l : list A) (i : Z) :
  in_range (length l) i -> Py.index l (i - 1) = l !! Z.to_nat (i - 1).
Proof.
  unfold in_range, Py.index. intros H.
  assert (((0 <=? i - 1) && (i - 1 <? Z.of_nat (length l)))%Z = true) as ->; [|done].
  apply andb_true_iff. split; [apply Z.leb_le | apply Z.ltb_lt]; lia.
Qed.

Lemma selection_loop_ok (n : nat) (lines rest out : list string)
    (idxs : list Z) :
  selection_loop n lines = (Ok idxs, rest, out) ->
  exists line,
    line ∈ lines
    /\ mapM Py.int (Py.split (Py.strip line)) = Some idxs
    /\ Forall (in_range n) idxs.
Proof.
  revert rest out. induction lines as [|line lines IH]; intros rest out H.
  - discriminate H.
  - cbn [selection_loop] in H.
    destruct (mapM Py.int (Py.split (Py.strip line))) as [sel|] eqn:Hparse.
    + destruct (existsb (out_of_range n) sel) eqn:Hrange.
      * destruct (selection_loop n lines) as [[o r] pr].
        injection H as Ho Hr Hout. subst o r.
        destruct (IH rest pr eq_refl) as (l & Hl & Hp & Hf).
        exists l. split; [by right | done].
      * injection H as <- <- <-. exists line. split; [by left|].
        split; [done|]. by apply existsb_out_of_range.
    + destruct (selection_loop n lines) as [[o r] pr].
      injection H as Ho Hr Hout. subst o r.
      destruct (IH rest pr eq_refl) as (l & Hl & Hp & Hf).
      exists l. split; [by right | done].
Qed.

Lemma selection_loop_first (n : nat) (line : string) (rest : list string)
    (idxs : list Z) :
  mapM Py.int (Py.split (Py.strip line)) = Some idxs ->
  Forall (in_range n) idxs ->
  selection_loop n (line :: rest) = (Ok idxs, rest, [select_prompt]).
Proof.
  intros Hp Hf. cbn [selection_loop]. rewrite Hp.
  apply existsb_out_of_range in Hf. by rewrite Hf.
Qed.

Lemma select_files_ok (video_files : list string) (idxs : list Z) :
  Forall (in_range (length video_files)) idxs ->
  exists sel,
    select_files video_files idxs = Some sel
    /\ length sel = length idxs
    /\ forall k i, idxs !! k = Some i ->
         exists f, video_files !! Z.to_nat (i - 1) = Some f /\ sel !! k = Some f.
Proof.
  intros Hf. unfold select_files.
  destruct (mapM (fun i => Py.index video_files (i - 1)) idxs) as [sel|] eqn:Hm.
  - exists sel. split; [done|]. apply mapM_Some in Hm. split.
    + symmetry. by eapply Forall2_length.
    + intros k i Hk.
      destruct (Forall2_lookup_l _ _ _ _ _ Hm Hk) as (f & Hs & Hi).
      exists f. split; [|done]. rewrite <- index_in_range; [done|].
      by eapply Forall_lookup_1.
  - exfalso. apply mapM_None in Hm. apply Exists_exists in Hm as (i & Hi & Hn).
    rewrite Forall_forall in Hf. specialize (Hf i Hi).
    rewrite (index_in_range _ _ Hf) in Hn.
    apply lookup_ge_None in Hn. unfold in_range in Hf. lia.
Qed.

Lemma select_files_elem_of (video_files sel : list string) (idxs : list Z)
    (f : string) :
  select_files video_files idxs = Some sel -> f ∈ sel -> f ∈ video_files.
Proof.
  unfold select_files. intros Hm Hf. apply mapM_Some in Hm.
  apply list_elem_of_lookup in Hf as [k Hk].
  destruct (Forall2_lookup_r _ _ _ _ _ Hm Hk) as (i & _ & Hi).
  by eapply index_elem_of.
Qed.

Lemma video_files_of_spec (listing : list string) (f : string) :
  f ∈ video_files_of listing <-> f ∈ listing /\ is_mp4_name f.
Proof.
  unfold video_files_of. rewrite !list_elem_of_In, filter_In.
  by rewrite endswith_lower_mp4.
Qed.

(** ** Running the monad *)

Lemma bind_assoc {A B C} (m : M A) (k : A -> M B) (k' : B -> M C) (w : World) :
  bind (bind m k) k' w = bind m (fun x => bind (k x) k') w.
Proof. unfold bind. by destruct (m w) as [w1 [a|e]]. Qed.

Lemma bind_cong {A B} (m : M A) (k k' : A -> M B) (w : World) :
  (forall a w1, k a w1 = k' a w1) -> bind m k w = bind m k' w.
Proof. intros H. unfold bind. destruct (m w) as [w1 [a|e]]; [apply H | done]. Qed.

Lemma bind_ret {A B} (a : A) (k : A -> M B) (w : World) :
  bind (ret a) k w = k a w.
Proof. reflexivity. Qed.

Lemma bind_raise {A B} (e : exn) (k : A -> M B) (w : World) :
  bind (raise e) k w = (w, Raise e).
Proof. reflexivity. Qed.

Lemma bind_print {B} (line : string) (k : unit -> M B) (w : World) :
  bind (print line) k w
  = k tt (mkWorld (stdin w) (stdout w ++ [line]) (files w) (events w)
            (next_handle w)).
Proof. reflexivity. Qed.

Lemma bind_emit {B} (e : Event) (k : unit -> M B) (w : World) :
  bind (emit e) k w
  = k tt (mkWorld (stdin w) (stdout w) (files w) (events w ++ [e])
            (next_handle w)).
Proof. reflexivity. Qed.

Lemma bind_fresh {B} (k : nat -> M B) (w : World) :
  bind fresh k w
  = k (next_handle w)
      (mkWorld (stdin w) (stdout w) (files w) (events w) (S (next_handle w))).
Proof. reflexivity. Qed.

Lemma bind_get_files {B} (k : gmap string string -> M B) (w : World) :
  bind get_files k w = k (files w) w.
Proof. reflexivity. Qed.

Lemma bind_set_files {B} (f : gmap string string -> gmap string string)
    (k : unit -> M B) (w : World) :
  bind (set_files f) k w
  = k tt (mkWorld (stdin w) (stdout w) (f (files w)) (events w)
            (next_handle w)).
Proof. reflexivity. Qed.

Lemma bind_input {B} (k : string -> M B) (w : World) :
  bind input k w
  = match stdin w with
    | [] => (w, Raise EOFError)
    | line :: rest =>
        k line (mkWorld rest (stdout w) (files w) (events w) (next_handle w))
    end.
Proof. unfold bind, input. by destruct (stdin w). Qed.

Lemma bind_console {A B}
    (f : list string -> Outcome A * list string * list string)
    (k : A -> M B) (w : World) :
  bind (console f) k w
  = let w1 := mkWorld (f (stdin w)).1.2 (stdout w ++ (f (stdin w)).2)
                (files w) (events w) (next_handle w) in
    match (f (stdin w)).1.1 with
    | Ok a => k a w1
    | Raise e => (w1, Raise e)
    end.
Proof. unfold bind, console. by destruct (f (stdin w)) as [[[a|e] r] pr]. Qed.

(** One step of a run: the first primitive of the program is executed. *)
Ltac run_step :=
  rewrite ?bind_assoc;
  first
    [ rewrite bind_print | rewrite bind_emit | rewrite bind_fresh
    | rewrite bind_get_files | rewrite bind_set_files | rewrite bind_ret
    | rewrite bind_raise ];
  cbn [stdin stdout files events next_handle].

(** The last primitive of a run. *)
Ltac run_last :=
  unfold ret, raise, set_files, emit, print;
  cbn [stdin stdout files events next_handle].

(** ** Runs of the stages *)

Section Runs.

Variable env : Env.
Variables folder src_lang tgt_lang : string.
Variable tr : nat.

Lemma add_events_nil (w : World) : add_events [] w = w.
Proof. destruct w. unfold add_events. simpl. by rewrite app_nil_r. Qed.

Lemma add_events_app (a b : list Event) (w : World) :
  add_events b (add_events a w) = add_events (a ++ b) w.
Proof. unfold add_events. simpl. by rewrite app_assoc. Qed.

Lemma translate_loop_spec (segs done : list Segment) (w w' : World)
    (o : Outcome (list Segment)) :
  for_each (translate_segment env src_lang tgt_lang tr) segs done w = (w', o) ->
  exists evs,
    w' = add_events evs w
    /\ Forall (fun e => is_translate tr e = true) evs
    /\ match o with
       | Ok segs' =>
           evs = translate_events src_lang tgt_lang tr segs
           /\ exists out,
                segs' = done ++ out
                /\ Forall2 (translated env src_lang tgt_lang) segs out
       | Raise e => e = TranslatorError
       end.
Proof.
  revert done w. induction segs as [|s segs IH]; intros done w H.
  - injection H as <- <-. exists []. rewrite add_events_nil.
    repeat split; [constructor|]. exists []. by rewrite app_nil_r.
  - cbn [for_each] in H. unfold bind at 1 in H.
    unfold translate_segment, translate_text, bind, emit, ret, raise in H.
    simpl in H.
    destruct (translator env (Py.strip (seg_text s)) src_lang tgt_lang)
      as [t|] eqn:Ht.
    + apply IH in H as (evs & -> & Hevs & Ho).
      exists (EvTranslate tr (Py.strip (seg_text s)) src_lang tgt_lang :: evs).
      split; [unfold add_events; simpl; by rewrite <- app_assoc|].
      split; [constructor; [simpl; apply Nat.eqb_refl | done]|].
      destruct o as [segs'|e]; [|done].
      destruct Ho as (-> & out & -> & Hout). split; [done|].
      exists (mkSegment (seg_start s) (seg_end s) t :: out).
      split; [by rewrite <- app_assoc|]. constructor; [|done].
      by repeat split.
    + injection H as <- <-.
      exists [EvTranslate tr (Py.strip (seg_text s)) src_lang tgt_lang].
      repeat split. constructor; [simpl; apply Nat.eqb_refl | constructor].
Qed.

End Runs.

Section VideoRun.

Variable env : Env.
Variables folder src_lang tgt_lang : string.
Variable tr : nat.

Lemma process_video_run (file : string) (report : Report) (w w' : World)
    (o : Outcome Report) :
  process_video env folder src_lang tgt_lang tr file report w = (w', o) ->
  exists out fs evs nh,
    w' = mkWorld (stdin w) (stdout w ++ out) fs (events w ++ evs) nh
    /\ video_run env folder src_lang tgt_lang tr file report w out fs evs nh o.
Proof.
  unfold process_video, extract_audio, load_model, model_transcribe.
  do 3 run_step.
  destruct (ffmpeg env (Py.join folder file)) as [pcm|] eqn:Hff.
  2:{ run_step. intros H. injection H as <- <-.
      eexists _, _, _, _. split; [|by apply run_extract_fails].
      by rewrite <- app_assoc. }
  do 4 run_step.
  destruct (load_model_ok env) eqn:Hload.
  2:{ run_step. intros H. injection H as <- <-.
      eexists _, _, _, _. split; [|by apply run_load_fails].
      unfold progress2, progress1. by rewrite <- !app_assoc. }
  do 3 run_step.
  rewrite lookup_insert_eq.
  destruct (transcribe env pcm) as [segs|] eqn:Htr.
  2:{ run_step. intros H. injection H as <- <-.
      eexists _, _, _, _. split; [|by apply run_transcribe_fails].
      unfold progress2, progress1. by rewrite <- !app_assoc. }
  do 2 run_step.
  unfold translate_segments, bind at 1.
  destruct (for_each _ segs [] _) as [w1 o1] eqn:Hloop.
  apply translate_loop_spec in Hloop as (evs & -> & Hevs & Ho1).
  destruct o1 as [segs'|e].
  2:{ subst e. intros H. injection H as <- <-.
      eexists _, _, _, _. split; [|by eapply run_translate_fails].
      unfold add_events, progress3, progress2, progress1. simpl.
      by rewrite <- !app_assoc. }
  destruct Ho1 as (-> & out & -> & Hout). rewrite app_nil_l.
  unfold assemble, write_subtitles, write_file, add_events.
  cbn [stdin stdout files events next_handle].
  run_step.
  destruct (writable env (srt_path _ _ _)) eqn:Hw1.
  2:{ run_step. intros H. injection H as <- <-.
      eexists _, _, _, _. split; [|by eapply run_write1_fails].
      unfold progress3, progress2, progress1. simpl.
      by rewrite <- !app_assoc. }
  do 2 run_step.
  destruct (writable env (alt_srt_path _ _ _)) eqn:Hw2.
  2:{ run_step. intros H. injection H as <- <-.
      eexists _, _, _, _. split; [|by eapply run_write2_fails].
      unfold progress3, progress2, progress1. simpl.
      by rewrite <- !app_assoc. }
  run_step. unfold os_remove. do 2 run_step.
  match goal with |- context [?m !! ?k] =>
    assert (is_Some (m !! k)) as [x Hx] end.
  { rewrite !lookup_insert_is_Some'. right; right. by left. }
  rewrite Hx. run_step. run_last. intros H. injection H as <- <-.
  eexists _, _, _, _. split; [|by eapply run_ok].
  unfold progress3, progress2, progress1. simpl.
  by rewrite <- !app_assoc.
Qed.

End VideoRun.

(** ** Runs of the batch *)

Lemma for_each_app {A S} (body : A -> S -> M S) (xs ys : list A) (acc : S)
    (w : World) :
  for_each body (xs ++ ys) acc w
  = bind (for_each body xs acc) (for_each body ys) w.
Proof.
  revert acc w. induction xs as [|x xs IH]; intros acc w; [done|].
  cbn [app for_each]. rewrite bind_assoc. apply bind_cong. intros a w1. apply IH.
Qed.

(** A loop whose body raises stops there, whatever is left to do. *)
Lemma for_each_raise {A S} (body : A -> S -> M S) (pre rest : list A) (x : A)
    (acc acc1 : S) (w w1 w2 : World) (e : exn) :
  for_each body pre acc w = (w1, Ok acc1) ->
  body x acc1 w1 = (w2, Raise e) ->
  for_each body (pre ++ x :: rest) acc w = (w2, Raise e).
Proof.
  intros Hpre Hx. rewrite for_each_app. unfold bind. rewrite Hpre.
  cbn [for_each]. unfold bind. by rewrite Hx.
Qed.

Section Batch.

Variable env : Env.
Variables folder src_lang tgt_lang : string.
Variable tr : nat.

Lemma translate_events_Forall (segs : list Segment) :
  Forall (fun e => is_translate tr e = true)
    (translate_events src_lang tgt_lang tr segs).
Proof.
  unfold translate_events. apply Forall_map, Forall_forall. intros s _.
  simpl. apply Nat.eqb_refl.
Qed.

Lemma filter_whisper_translate (evs : list Event) :
  Forall (fun e => is_translate tr e = true) evs ->
  List.filter is_whisper evs = [].
Proof.
  induction 1 as [|e evs He _ IH]; [done|].
  destruct e; try discriminate He. simpl. exact IH.
Qed.

Lemma translate_no_pipeline (evs : list Event) :
  Forall (fun e => is_translate tr e = true) evs ->
  Forall (fun e => is_pipeline e = false) evs.
Proof. intros H. eapply Forall_impl; [exact H|]. by intros []. Qed.

Lemma translate_no_ffmpeg (evs : list Event) :
  Forall (fun e => is_translate tr e = true) evs ->
  Forall (fun e => is_ffmpeg e = false) evs.
Proof. intros H. eapply Forall_impl; [exact H|]. by intros []. Qed.

Lemma translate_uses_translator (evs : list Event) :
  Forall (fun e => is_translate tr e = true) evs ->
  Forall (fun e => uses_translator tr e = true) evs.
Proof. intros H. eapply Forall_impl; [exact H|]. by intros []. Qed.

(** What one run of the loop body adds to the trace. *)
Lemma video_run_trace (file : string) (report : Report) (w : World)
    (out : list string) (fs : gmap string string) (evs : list Event)
    (nh : nat) (o : Outcome Report) :
  video_run env folder src_lang tgt_lang tr file report w out fs evs nh o ->
  Forall (fun e => is_pipeline e = false) evs
  /\ Forall (fun e => uses_translator tr e = true) evs
  /\ List.filter is_whisper evs
     `prefix_of` whisper_trace folder (next_handle w) [file]
  /\ match o with
     | Ok report' =>
         List.filter is_whisper evs = whisper_trace folder (next_handle w) [file]
         /\ nh = S (next_handle w)
         /\ report'.1 = report.1 ++ [file]
     | Raise _ => True
     end.
Proof.
  intros Hrun. destruct Hrun;
    repeat match goal with
           | H : Forall (fun e => is_translate tr e = true) _ |- _ =>
               pose proof (translate_no_pipeline _ H);
               pose proof (translate_uses_translator _ H);
               pose proof (filter_whisper_translate _ H); clear H
           end;
    try (pose proof (translate_events_Forall segs) as Hts;
         pose proof (translate_no_pipeline _ Hts);
         pose proof (translate_uses_translator _ Hts);
         pose proof (filter_whisper_translate _ Hts); clear Hts);
    rewrite ?Forall_app, ?List.filter_app; cbn [List.filter is_whisper app];
    repeat match goal with H : List.filter _ _ = [] |- _ => rewrite H end;
    cbn [app whisper_trace];
    repeat split; try done; repeat constructor;
    try (by apply prefix_cons, prefix_nil);
    try (by apply prefix_nil).
Qed.

(** What a batch adds to the trace, however it ends. *)
Lemma batch_trace (sel : list string) (report : Report) (w w' : World)
    (o : Outcome Report) :
  for_each (process_video env folder src_lang tgt_lang tr) sel report w
    = (w', o) ->
  exists evs,
    events w' = events w ++ evs
    /\ Forall (fun e => is_pipeline e = false) evs
    /\ Forall (fun e => uses_translator tr e = true) evs
    /\ List.filter is_whisper evs
       `prefix_of` whisper_trace folder (next_handle w) sel
    /\ match o with
       | Ok report' =>
           List.filter is_whisper evs = whisper_trace folder (next_handle w) sel
           /\ report'.1 = report.1 ++ sel
       | Raise _ => True
       end.
Proof.
  revert report w. induction sel as [|file sel IH]; intros report w H.
  - injection H as <- <-. exists []. rewrite !app_nil_r.
    split; [done|]. split; [constructor|]. split; [constructor|].
    split; [apply prefix_nil|]. done.
  - cbn [for_each] in H. unfold bind in H.
    destruct (process_video _ _ _ _ _ _ _ _) as [w1 o1] eqn:Hv.
    apply process_video_run in Hv as (out & fs & evs & nh & -> & Hrun).
    apply video_run_trace in Hrun as (Hp & Ht & Hpre & Ho1).
    destruct o1 as [report1|e].
    + destruct Ho1 as (Hw & -> & Hr1).
      apply IH in H as (evs' & Hev & Hp' & Ht' & Hpre' & Ho).
      cbn [events next_handle] in *.
      exists (evs ++ evs'). rewrite Hev, <- app_assoc. split; [done|].
      rewrite !Forall_app, List.filter_app, Hw. cbn [whisper_trace app].
      split; [done|]. split; [done|]. split; [by do 2 apply prefix_cons|].
      destruct o as [report'|e]; [|done]. destruct Ho as [-> ->].
      by rewrite Hr1, <- app_assoc.
    + injection H as <- <-. exists evs. cbn [events].
      split; [done|]. split; [done|]. split; [done|]. split; [|done].
      etrans; [exact Hpre|]. cbn [whisper_trace].
      do 2 apply prefix_cons. apply prefix_nil.
Qed.

End Batch.

(** ** The dialogue *)

Lemma print_all_run (lines : list string) (w : World) :
  print_all lines w
  = (mkWorld (stdin w) (stdout w ++ lines) (files w) (events w)
       (next_handle w), Ok tt).
Proof.
  unfold print_all. revert w. induction lines as [|l lines IH]; intros w.
  - destruct w. unfold for_each, ret. simpl. by rewrite app_nil_r.
  - cbn [for_each]. rewrite bind_print, IH. simpl.
    by rewrite <- app_assoc.
Qed.

Lemma bind_print_all {B} (lines : list string) (k : unit -> M B) (w : World) :
  bind (print_all lines) k w
  = k tt (mkWorld (stdin w) (stdout w ++ lines) (files w) (events w)
            (next_handle w)).
Proof. unfold bind. by rewrite print_all_run. Qed.

Lemma language_loop_ok (lines rest out : list string) (src tgt : string) :
  language_loop lines = (Ok (src, tgt), rest, out) ->
  is_language src = true /\ is_language tgt = true.
Proof.
  assert (forall n lines rest out, (length lines <= n)%nat ->
    language_loop lines = (Ok (src, tgt), rest, out) ->
    is_language src = true /\ is_language tgt = true) as Hgen;
    [|by apply (Hgen (length lines) lines rest out)].
  clear lines rest out. intros n.
  induction n as [|n IH]; intros lines rest out Hn H;
    (destruct lines as [|l1 lines]; [discriminate H|]); [simpl in Hn; lia|].
  cbn [language_loop] in H.
  destruct (is_language (Py.lower (Py.strip l1))) eqn:Hsrc; cbn [negb] in H.
  - destruct lines as [|l2 lines]; [discriminate H|].
    destruct (is_language (Py.lower (Py.strip l2))) eqn:Htgt; cbn [negb] in H.
    + injection H as <- <- _ _. done.
    + destruct (language_loop lines) as [[o r] pr] eqn:Hl.
      injection H as Ho Hr Hout. subst o.
      eapply (IH lines); [simpl in Hn; lia | exact Hl].
  - destruct (language_loop lines) as [[o r] pr] eqn:Hl.
    injection H as Ho Hr Hout. subst o.
    eapply (IH lines); [simpl in Hn; lia | exact Hl].
Qed.

(** The dialogue touches neither the files nor the services, and what it
    hands over was checked. *)
Lemma front_end_ok (env : Env) (w w' : World) (folder : string)
    (sel : list string) (langs : string * string) :
  front_end env w = (w', Ok (folder, sel, langs)) ->
  files w' = files w /\ events w' = events w
  /\ next_handle w' = next_handle w
  /\ isdir env folder = true
  /\ is_language langs.1 = true /\ is_language langs.2 = true
  /\ exists idxs,
       Forall (in_range (length (video_files_of (listdir env folder)))) idxs
       /\ select_files (video_files_of (listdir env folder)) idxs = Some sel.
Proof.
  unfold front_end. run_step. rewrite bind_input.
  cbn [stdin stdout files events next_handle].
  destruct (stdin w) as [|line rest] eqn:Hin; [discriminate|].
  set (fd := Py.strip_char squote (Py.strip_char dquote (Py.strip line))).
  destruct (isdir env fd) eqn:Hdir; cbn [negb].
  2:{ run_step. discriminate. }
  destruct (video_files_of (listdir env fd)) as [|v vs] eqn:Hvf.
  { run_step. discriminate. }
  run_step. rewrite bind_print_all, bind_console.
  cbn [stdin stdout files events next_handle].
  destruct (selection_loop (length (v :: vs)) rest) as [[o r] pr] eqn:Hsel.
  cbn [fst snd].
  destruct o as [idxs|e]; [|discriminate].
  apply selection_loop_ok in Hsel as (l & _ & _ & Hrange).
  destruct (select_files (v :: vs) idxs) as [sel'|] eqn:Hsf; [|discriminate].
  run_step. rewrite bind_print_all, bind_console.
  cbn [stdin stdout files events next_handle].
  destruct (language_loop r) as [[o r'] pr'] eqn:Hlang.
  cbn [fst snd].
  destruct o as [[src tgt]|e]; [|discriminate].
  apply language_loop_ok in Hlang as [Hs Ht].
  unfold ret. intros H. injection H as <- <- <- <-.
  cbn [files events next_handle fst snd].
  repeat (split; [done|]). exists idxs. by rewrite Hvf.
Qed.

Lemma front_end_frame (env : Env) (w w' : World)
    (o : Outcome (string * list string * (string * string))) :
  front_end env w = (w', o) ->
  files w' = files w /\ events w' = events w
  /\ next_handle w' = next_handle w.
Proof.
  unfold front_end. run_step. rewrite bind_input.
  cbn [stdin stdout files events next_handle].
  destruct (stdin w) as [|line rest] eqn:Hin; [by intros [= <- <-]|].
  destruct (isdir env _) eqn:Hdir; cbn [negb].
  2:{ run_step. by intros [= <- <-]. }
  destruct (video_files_of (listdir env _)) as [|v vs] eqn:Hvf.
  { run_step. by intros [= <- <-]. }
  run_step. rewrite bind_print_all, bind_console.
  cbn [stdin stdout files events next_handle].
  destruct (selection_loop (length (v :: vs)) rest) as [[o1 r] pr] eqn:Hsel.
  cbn [fst snd].
  destruct o1 as [idxs|e]; [|by intros [= <- <-]].
  destruct (select_files (v :: vs) idxs) as [sel'|] eqn:Hsf;
    [|by intros [= <- <-]].
  run_step. rewrite bind_print_all, bind_console.
  cbn [stdin stdout files events next_handle].
  destruct (language_loop r) as [[o2 r'] pr'] eqn:Hlang.
  cbn [fst snd].
  destruct o2 as [[src tgt]|e]; by intros [= <- <-].
Qed.

(** ** The claims *)

(** C8: the videos offered for selection are exactly the entries of the
    folder whose name ends with [.mp4], letters compared without regard to
    case; whatever the user selects, and so whatever is processed, is such
    an entry. *)
Theorem C8_only_mp4_listed (env : Env) (listing : list string) :
  (forall f, f ∈ video_files_of listing <-> f ∈ listing /\ is_mp4_name f)
  /\ (forall idxs sel f,
        select_files (video_files_of listing) idxs = Some sel ->
        f ∈ sel -> f ∈ listing /\ is_mp4_name f)
  /\ (forall w w' folder sel langs f,
        front_end env w = (w', Ok (folder, sel, langs)) ->
        f ∈ sel -> f ∈ listdir env folder /\ is_mp4_name f).
Proof.
  split; [apply video_files_of_spec|]. split.
  - intros idxs sel f Hsel Hf. apply video_files_of_spec.
    by eapply select_files_elem_of.
  - intros w w' folder sel langs f Hfe Hf.
    apply front_end_ok in Hfe as (_ & _ & _ & _ & _ & _ & idxs & _ & Hsel).
    apply video_files_of_spec. by eapply select_files_elem_of.
Qed.

(** C10: the selection loop accepts a line only when each of its tokens
    parses as an integer between 1 and the number of listed files, so that
    [video_files[i - 1]] is an element of the list for every accepted [i];
    a line whose tokens are all such integers is accepted as it is, with
    its repetitions, and a batch that ends normally has processed every
    occurrence of the selection, in order. *)
Theorem C10_selection_in_bounds (env : Env) (video_files : list string) :
  (forall lines rest out idxs,
     selection_loop (length video_files) lines = (Ok idxs, rest, out) ->
     (exists line,
        line ∈ lines /\ mapM Py.int (Py.split (Py.strip line)) = Some idxs)
     /\ Forall (in_range (length video_files)) idxs
     /\ exists sel,
          select_files video_files idxs = Some sel
          /\ length sel = length idxs
          /\ forall k i, idxs !! k = Some i ->
               exists f, video_files !! Z.to_nat (i - 1) = Some f
                         /\ sel !! k = Some f)
  /\ (forall line rest idxs,
        mapM Py.int (Py.split (Py.strip line)) = Some idxs ->
        Forall (in_range (length video_files)) idxs ->
        selection_loop (length video_files) (line :: rest)
          = (Ok idxs, rest, [select_prompt]))
  /\ (forall folder src_lang tgt_lang tr sel w w' report,
        process_all env folder src_lang tgt_lang tr sel w = (w', Ok report) ->
        report.1 = sel
        /\ exists evs,
             events w' = events w ++ evs
             /\ List.filter is_whisper evs
                = whisper_trace folder (next_handle w) sel).
Proof.
  split; [|split].
  - intros lines rest out idxs H.
    apply selection_loop_ok in H as (line & Hl & Hp & Hr).
    split; [by exists line|]. split; [done|]. by apply select_files_ok.
  - intros line rest idxs. apply selection_loop_first.
  - intros folder src_lang tgt_lang tr sel w w' report H.
    apply batch_trace in H as (evs & Hev & _ & _ & _ & Hw & Hr).
    split; [done|]. by exists evs.
Qed.

Lemma C8_only_mp4_listed_witness :
  "Clip1.MP4" ∈ ["bad.mp4"; "notes.txt"; "Clip1.MP4"]
  /\ is_mp4_name "Clip1.MP4".
Proof.
  apply (proj1 (proj2
           (C8_only_mp4_listed demo_env ["bad.mp4"; "notes.txt"; "Clip1.MP4"]))
           [2%Z] ["Clip1.MP4"] "Clip1.MP4").
  - reflexivity.
  - by left.
Defined.

Lemma C10_selection_in_bounds_witness :
  exists sel,
    select_files ["a.mp4"; "b.mp4"] [2%Z; 2%Z; 1%Z] = Some sel
    /\ length sel = 3%nat
    /\ forall k i, [2%Z; 2%Z; 1%Z] !! k = Some i ->
         exists f, ["a.mp4"; "b.mp4"] !! Z.to_nat (i - 1) = Some f
                   /\ sel !! k = Some f.
Proof.
  apply (proj1 (C10_selection_in_bounds demo_env ["a.mp4"; "b.mp4"])
           ["x"; "0"; " 2 2 1 "; "3"] ["3"]
           [select_prompt;
            "Invalid input. Please enter numbers separated by spaces.";
            select_prompt;
            "One or more numbers are out of range. Please try again.";
            select_prompt]
           [2%Z; 2%Z; 1%Z]).
  reflexivity.
Defined.

Lemma final_report_run (report : Report) (w : World) :
  exists out,
    final_report report w
    = (mkWorld (stdin w) (stdout w ++ out) (files w) (events w)
         (next_handle w), Ok tt).
Proof.
  unfold final_report. eexists.
  do 2 run_step. rewrite bind_print_all. cbn [stdin stdout files events next_handle].
  run_step. rewrite bind_print_all. cbn [stdin stdout files events next_handle].
  unfold print. cbn [stdin stdout files events next_handle].
  rewrite <- !app_assoc. reflexivity.
Qed.

(** The part of [main] after the dialogue: the pipeline is built first,
    once; without it nothing else is called. *)
Lemma back_end_trace (env : Env) (folder src_lang tgt_lang : string)
    (sel : list string) (w w' : World) (o : Outcome unit) :
  back_end env folder sel src_lang tgt_lang w = (w', o) ->
  exists evs,
    events w' = events w ++ EvPipeline (next_handle w) :: evs
    /\ Forall (fun e => is_pipeline e = false) evs
    /\ Forall (fun e => uses_translator (next_handle w) e = true) evs
    /\ List.filter is_whisper evs
       `prefix_of` whisper_trace folder (S (next_handle w)) sel
    /\ (o = Ok tt ->
        List.filter is_whisper evs
        = whisper_trace folder (S (next_handle w)) sel)
    /\ (pipeline_ok env = false ->
        evs = [] /\ files w' = files w /\ o = Raise (SystemExit 1)).
Proof.
  unfold back_end, init_translator. do 2 run_step.
  destruct (pipeline_ok env) eqn:Hp.
  - run_step. unfold process_all, bind.
    destruct (for_each _ sel _ _) as [w1 o1] eqn:Hb.
    apply batch_trace in Hb as (evs & Hev & Hnp & Hut & Hpre & Ho1).
    cbn [events next_handle] in *.
    destruct o1 as [report|e].
    + destruct (final_report_run report w1) as [out ->].
      intros H. injection H as <- <-. cbn [events].
      exists evs. rewrite Hev, <- app_assoc. destruct Ho1 as [Hw _].
      repeat (split; [done|]). done.
    + intros H. injection H as <- <-.
      exists evs. rewrite Hev, <- app_assoc.
      repeat (split; [done|]). done.
  - do 4 run_step. intros H. injection H as <- <-. cbn [events files].
    exists []. split; [done|]. split; [constructor|]. split; [constructor|].
    split; [apply prefix_nil|]. split; [discriminate|]. done.
Qed.

(** C3: in every run of [main] the translation pipeline is built at most
    once, and it is the first call that leaves the script, before any
    ffmpeg or Whisper call; when building it fails, [main] ends with
    [SystemExit(1)] (or ended earlier, in the dialogue), no ffmpeg call
    was made and the files are as they were. *)
Theorem C3_translator_initialised_once_first (env : Env) (w w' : World)
    (o : Outcome unit) :
  main env w = (w', o) ->
  exists evs,
    events w' = events w ++ evs
    /\ (evs = []
        \/ exists evs', evs = EvPipeline (next_handle w) :: evs'
             /\ Forall (fun e => is_pipeline e = false) evs')
    /\ (pipeline_ok env = false ->
        files w' = files w
        /\ Forall (fun e => is_ffmpeg e = false) evs
        /\ o <> Ok tt
        /\ (forall wf choice, front_end env w = (wf, Ok choice) ->
              evs = [EvPipeline (next_handle w)]
              /\ o = Raise (SystemExit 1))).
Proof.
  unfold main, bind. intros H.
  destruct (front_end env w) as [wf [choice|e]] eqn:Hfe.
  - apply front_end_frame in Hfe as (Hfiles & Hevents & Hnh).
    apply back_end_trace in H as (evs & Hev & Hnp & _ & _ & _ & Hfail).
    rewrite Hevents, Hnh in Hev.
    exists (EvPipeline (next_handle w) :: evs). split; [done|].
    split; [right; by exists evs|].
    intros Hp. destruct (Hfail Hp) as (-> & Hf & ->).
    split; [congruence|]. split; [by repeat constructor|].
    split; [discriminate|]. by intros wf' choice' [= _ _].
  - injection H as <- <-.
    apply front_end_frame in Hfe as (Hfiles & Hevents & Hnh).
    exists []. rewrite app_nil_r. split; [done|]. split; [by left|].
    intros _. split; [done|]. split; [constructor|].
    split; [discriminate|]. intros wf' choice' [=].
Qed.

Lemma C3_translator_initialised_once_first_witness :
  exists evs,
    events (main demo_env_no_pipeline (world0 demo_lines)).1
    = events (world0 demo_lines) ++ evs
    /\ (evs = []
        \/ exists evs', evs = EvPipeline (next_handle (world0 demo_lines)) :: evs'
             /\ Forall (fun e => is_pipeline e = false) evs')
    /\ (pipeline_ok demo_env_no_pipeline = false ->
        files (main demo_env_no_pipeline (world0 demo_lines)).1
        = files (world0 demo_lines)
        /\ Forall (fun e => is_ffmpeg e = false) evs
        /\ (main demo_env_no_pipeline (world0 demo_lines)).2 <> Ok tt
        /\ (forall wf choice,
              front_end demo_env_no_pipeline (world0 demo_lines)
              = (wf, Ok choice) ->
              evs = [EvPipeline (next_handle (world0 demo_lines))]
              /\ (main demo_env_no_pipeline (world0 demo_lines)).2
                 = Raise (SystemExit 1))).
Proof.
  apply (C3_translator_initialised_once_first demo_env_no_pipeline
           (world0 demo_lines)).
  vm_compute. reflexivity.
Defined.

Lemma loaded_handles_filter (evs : list Event) :
  loaded_handles (List.filter is_whisper evs) = loaded_handles evs.
Proof.
  induction evs as [|e evs IH]; [done|].
  destruct e; cbn [List.filter is_whisper]; unfold loaded_handles in *;
    cbn [omap list_omap]; congruence.
Qed.

Lemma loaded_handles_trace (folder : string) (h : nat) (sel : list string) :
  loaded_handles (whisper_trace folder h sel) = seq h (length sel).
Proof.
  revert h. induction sel as [|f sel IH]; intros h; [done|].
  cbn [whisper_trace length seq]. unfold loaded_handles in *.
  cbn [omap list_omap]. by rewrite IH.
Qed.

Lemma loaded_handles_prefix (evs evs' : list Event) :
  evs `prefix_of` evs' -> loaded_handles evs `prefix_of` loaded_handles evs'.
Proof.
  intros [k ->]. unfold loaded_handles. rewrite omap_app. by apply prefix_app_r.
Qed.

(** C9: after the one pipeline construction, whose handle every
    translation call uses, the Whisper calls of a batch are, video by
    video, a model load returning a new handle followed by the
    transcription of that video's audio with that handle; a batch that ends
    normally made exactly one load per selected video, and no two loads
    returned the same handle. *)
Theorem C9_model_loaded_per_video (env : Env)
    (folder src_lang tgt_lang : string) (sel : list string) (w w' : World)
    (o : Outcome unit) :
  back_end env folder sel src_lang tgt_lang w = (w', o) ->
  exists evs,
    events w' = events w ++ EvPipeline (next_handle w) :: evs
    /\ Forall (fun e => is_pipeline e = false) evs
    /\ Forall (fun e => uses_translator (next_handle w) e = true) evs
    /\ List.filter is_whisper evs
       `prefix_of` whisper_trace folder (S (next_handle w)) sel
    /\ loaded_handles evs `prefix_of` seq (S (next_handle w)) (length sel)
    /\ NoDup (loaded_handles evs)
    /\ (o = Ok tt ->
        List.filter is_whisper evs
        = whisper_trace folder (S (next_handle w)) sel
        /\ loaded_handles evs = seq (S (next_handle w)) (length sel)).
Proof.
  intros H.
  apply back_end_trace in H as (evs & Hev & Hnp & Hut & Hpre & Hok & _).
  assert (loaded_handles evs `prefix_of` seq (S (next_handle w)) (length sel))
    as Hl.
  { rewrite <- loaded_handles_filter, <- (loaded_handles_trace folder).
    by apply loaded_handles_prefix. }
  exists evs. repeat (split; [done|]). split.
  - destruct Hl as [k Hk]. pose proof (NoDup_seq (S (next_handle w)) (length sel)) as Hnd.
    rewrite Hk in Hnd. by apply NoDup_app in Hnd as [? _].
  - intros Ho. specialize (Hok Ho). split; [done|].
    by rewrite <- loaded_handles_filter, Hok, loaded_handles_trace.
Qed.

Lemma C9_model_loaded_per_video_witness :
  exists evs,
    events (back_end demo_env "/v" ["Clip1.MP4"; "Clip1.MP4"] "it" "en"
              (world0 [])).1
    = events (world0 []) ++ EvPipeline (next_handle (world0 [])) :: evs
    /\ Forall (fun e => is_pipeline e = false) evs
    /\ Forall (fun e => uses_translator (next_handle (world0 [])) e = true) evs
    /\ List.filter is_whisper evs
       `prefix_of` whisper_trace "/v" (S (next_handle (world0 [])))
                     ["Clip1.MP4"; "Clip1.MP4"]
    /\ loaded_handles evs
       `prefix_of` seq (S (next_handle (world0 [])))
                     (length ["Clip1.MP4"; "Clip1.MP4"])
    /\ NoDup (loaded_handles evs)
    /\ ((back_end demo_env "/v" ["Clip1.MP4"; "Clip1.MP4"] "it" "en"
           (world0 [])).2 = Ok tt ->
        List.filter is_whisper evs
        = whisper_trace "/v" (S (next_handle (world0 [])))
            ["Clip1.MP4"; "Clip1.MP4"]
        /\ loaded_handles evs
           = seq (S (next_handle (world0 [])))
               (length ["Clip1.MP4"; "Clip1.MP4"])).
Proof.
  apply (C9_model_loaded_per_video demo_env "/v" "it" "en"
           ["Clip1.MP4"; "Clip1.MP4"] (world0 [])).
  vm_compute. reflexivity.
Defined.

(** ** Paths *)

Lemma startswith_sep_base (base t1 t2 : string) :
  Py.startswith (base +:+ String "." t1) "/"
  = Py.startswith (base +:+ String "." t2) "/".
Proof. destruct base as [|c base]; [done|]. by rewrite !append_cons. Qed.

(** The audio file and a subtitle file of one video never coincide. *)
Lemma audio_ne_srt (folder base code : string) :
  audio_path folder base <> Py.join folder (srt_filename base code).
Proof.
  unfold audio_path, srt_filename.
  change (base +:+ "." +:+ code +:+ ".srt")
    with (base +:+ String "." (code +:+ ".srt")).
  intros H. apply join_same_head in H; [|apply startswith_sep_base].
  apply String.app_inj in H. injection H as H.
  apply (f_equal String.length) in H.
  rewrite (length_append code ".srt") in H. simpl in H. lia.
Qed.

Lemma lookup_leave_ne (path q : string) (debris : option string)
    (fs : gmap string string) :
  q <> path -> leave path debris fs !! q = fs !! q.
Proof. intros H. destruct debris; [|done]. by apply lookup_insert_ne. Qed.

Lemma leave_is_Some (path q : string) (debris : option string)
    (fs : gmap string string) :
  is_Some (fs !! q) -> is_Some (leave path debris fs !! q).
Proof.
  intros H. destruct debris; [|done]. simpl.
  rewrite lookup_insert_is_Some'. by right.
Qed.

Section Failure.

Variable env : Env.
Variables folder src_lang tgt_lang : string.
Variable tr : nat.

Lemma translate_no_remove (evs : list Event) :
  Forall (fun e => is_translate tr e = true) evs ->
  Forall (fun e => is_remove e = false) evs.
Proof. intros H. eapply Forall_impl; [exact H|]. by intros []. Qed.

(** How a run of the loop body that raises leaves the files. *)
Lemma video_run_failure (file : string) (report : Report) (w : World)
    (out : list string) (fs : gmap string string) (evs : list Event)
    (nh : nat) (e : exn) :
  video_run env folder src_lang tgt_lang tr file report w out fs evs nh
    (Raise e) ->
  let audio := audio_path folder (Py.splitext_root file) in
  Forall (fun ev => is_remove ev = false) evs
  /\ (e <> CalledProcessError -> is_Some (fs !! audio))
  /\ ((forall p, e <> OSError p) ->
      forall q, q <> audio -> fs !! q = files w !! q).
Proof.
  intros Hrun audio. inversion Hrun; subst; clear Hrun.
  all: split;
    [rewrite ?Forall_app; repeat split;
     first [ done
           | by apply translate_no_remove
           | by apply translate_no_remove, translate_events_Forall
           | by repeat constructor ]|].
  all: split;
    [first [ by intros []
           | intros _; apply leave_is_Some;
             rewrite ?lookup_insert_is_Some'; first [by left | by right; left]
           | intros _; rewrite ?lookup_insert_is_Some';
             first [by left | by right; left] ]|].
  all: intros Hos q Hq.
  all: first [ by rewrite lookup_leave_ne
             | by rewrite lookup_insert_ne
             | exfalso; by eapply Hos ].
Qed.

End Failure.

(** C1 (as the code has it): an exception raised by a stage of one video
    is not caught. It ends the loop and [main] with it: the world is left
    as that video's run left it, whatever videos were still to come, and no
    report is made. When the stage that failed comes before the writing of
    the subtitles, the run touched no file but the video's audio file. *)
Theorem C1_failure_ends_batch (env : Env) (folder src_lang tgt_lang : string)
    (tr : nat) (pre rest : list string) (file : string) (w w1 w2 : World)
    (report1 : Report) (e : exn) :
  process_all env folder src_lang tgt_lang tr pre w = (w1, Ok report1) ->
  process_video env folder src_lang tgt_lang tr file report1 w1
    = (w2, Raise e) ->
  process_all env folder src_lang tgt_lang tr (pre ++ file :: rest) w
    = (w2, Raise e)
  /\ (forall w0,
        init_translator env w0 = (w, Ok tr) ->
        back_end env folder (pre ++ file :: rest) src_lang tgt_lang w0
        = (w2, Raise e))
  /\ ((forall p, e <> OSError p) ->
      forall q, q <> audio_path folder (Py.splitext_root file) ->
        files w2 !! q = files w1 !! q).
Proof.
  intros Hpre Hfile.
  assert (process_all env folder src_lang tgt_lang tr (pre ++ file :: rest) w
          = (w2, Raise e)) as Hall.
  { unfold process_all in *. by eapply for_each_raise. }
  split; [done|]. split.
  { intros w0 Hinit. unfold back_end, bind. by rewrite Hinit, Hall. }
  apply process_video_run in Hfile as (out & fs & evs & nh & -> & Hrun).
  apply video_run_failure in Hrun as (_ & _ & Hframe).
  cbn [files]. exact Hframe.
Qed.

Lemma C1_failure_ends_batch_witness :
  let w := world0 [] in
  let w1 := (process_all demo_env "/v" "it" "en" 0 ["Clip1.MP4"] w).1 in
  let w2 := (process_video demo_env "/v" "it" "en" 0 "bad.mp4"
               (["Clip1.MP4"], [("/v/Clip1.en.srt", "/v/Clip1.eng.srt")])
               w1).1 in
  process_all demo_env "/v" "it" "en" 0
    (["Clip1.MP4"] ++ "bad.mp4" :: ["Clip1.MP4"]) w
  = (w2, Raise CalledProcessError)
  /\ (forall w0,
        init_translator demo_env w0 = (w, Ok 0%nat) ->
        back_end demo_env "/v" (["Clip1.MP4"] ++ "bad.mp4" :: ["Clip1.MP4"])
          "it" "en" w0
        = (w2, Raise CalledProcessError))
  /\ ((forall p, CalledProcessError <> OSError p) ->
      forall q, q <> audio_path "/v" (Py.splitext_root "bad.mp4") ->
        files w2 !! q = files w1 !! q).
Proof.
  intros w w1 w2.
  apply (C1_failure_ends_batch demo_env "/v" "it" "en" 0 ["Clip1.MP4"]
           ["Clip1.MP4"] "bad.mp4" w w1 w2
           (["Clip1.MP4"], [("/v/Clip1.en.srt", "/v/Clip1.eng.srt")])
           CalledProcessError).
  - vm_compute. reflexivity.
  - vm_compute. reflexivity.
Defined.

(** C1 fails as stated: with [bad.mp4] and [Clip1.MP4] selected in this
    order, ffmpeg failing on the first ends [main] with the exception, and
    the second video, which would have been processed, is never
    extracted. *)
Lemma C1_counterexample :
  let r := main demo_env (world0 ["/v"; "1 2"; "it"; "en"]) in
  r.2 = Raise CalledProcessError
  /\ events r.1 = [EvPipeline 0; EvFfmpeg "/v/bad.mp4" "/v/bad.wav"]
  /\ files r.1 !! "/v/Clip1.en.srt" = None
  /\ (main demo_env (world0 ["/v"; "2"; "it"; "en"])).2 = Ok tt.
Proof. vm_compute. repeat split. Qed.

(** C2 (as the code has it): the audio file of a video is removed at the
    very end of that video's run, after both subtitle files have been
    written, and only when every stage succeeded: then it is gone before
    the loop goes on. When a stage after the extraction raises, the audio
    file is still there and no removal was attempted. *)
Theorem C2_audio_removed_at_end_of_successful_run (env : Env)
    (folder src_lang tgt_lang : string) (tr : nat) (file : string)
    (report : Report) (w w' : World) (o : Outcome Report) :
  process_video env folder src_lang tgt_lang tr file report w = (w', o) ->
  let base := Py.splitext_root file in
  let audio := audio_path folder base in
  (forall report', o = Ok report' ->
     files w' !! audio = None
     /\ exists evs,
          events w'
          = events w ++ evs
              ++ [EvWrite (srt_path folder base tgt_lang);
                  EvWrite (alt_srt_path folder base tgt_lang);
                  EvRemove audio]
          /\ EvTranscribe (next_handle w) audio ∈ evs
          /\ Forall (fun ev => is_remove ev = false) evs)
  /\ (forall e, o = Raise e -> e <> CalledProcessError ->
        is_Some (files w' !! audio)
        /\ exists evs,
             events w' = events w ++ evs
             /\ Forall (fun ev => is_remove ev = false) evs).
Proof.
  intros H base audio.
  apply process_video_run in H as (out & fs & evs & nh & -> & Hrun).
  cbn [files events]. split.
  - intros report' ->. inversion Hrun; subst. split.
    + apply lookup_delete_eq.
    + eexists. split; [f_equal; exact (app_assoc _ _ _)|]. split.
      * apply elem_of_app. left. do 2 right. left.
      * rewrite Forall_app. split; [by repeat constructor|].
        apply (translate_no_remove tr), translate_events_Forall.
  - intros e -> Hne.
    apply video_run_failure in Hrun as (Hrm & Hsome & _).
    split; [by apply Hsome|]. by exists evs.
Qed.

Lemma C2_audio_removed_at_end_of_successful_run_witness :
  let r := process_video demo_env "/v" "it" "en" 0 "Clip1.MP4" ([], [])
             (world0 []) in
  let base := Py.splitext_root "Clip1.MP4" in
  let audio := audio_path "/v" base in
  (forall report', r.2 = Ok report' ->
     files r.1 !! audio = None
     /\ exists evs,
          events r.1
          = events (world0 []) ++ evs
              ++ [EvWrite (srt_path "/v" base "en");
                  EvWrite (alt_srt_path "/v" base "en");
                  EvRemove audio]
          /\ EvTranscribe (next_handle (world0 [])) audio ∈ evs
          /\ Forall (fun ev => is_remove ev = false) evs)
  /\ (forall e, r.2 = Raise e -> e <> CalledProcessError ->
        is_Some (files r.1 !! audio)
        /\ exists evs,
             events r.1 = events (world0 []) ++ evs
             /\ Forall (fun ev => is_remove ev = false) evs).
Proof.
  intros r.
  apply (C2_audio_removed_at_end_of_successful_run demo_env "/v" "it" "en" 0
           "Clip1.MP4" ([], []) (world0 []) r.1 r.2).
  vm_compute. reflexivity.
Defined.

(** C2 fails as stated: when the translation of a segment raises, after
    the transcription has completed, [main] ends with the audio file still
    on disk. *)
Lemma C2_counterexample :
  let r := main demo_env_no_translation (world0 ["/v"; "2"; "it"; "en"]) in
  r.2 = Raise TranslatorError
  /\ EvTranscribe 1 "/v/Clip1.wav" ∈ events r.1
  /\ files r.1 !! "/v/Clip1.wav" = Some "pcm".
Proof.
  vm_compute. split; [reflexivity|]. split; [|reflexivity].
  do 3 right. left.
Qed.

(** ** Writing the subtitles *)

Lemma write_subtitles_run (env : Env) (folder base tgt content : string)
    (w w' : World) (o : Outcome unit) :
  write_subtitles env folder base tgt content w = (w', o) ->
  let srt := srt_path folder base tgt in
  let alt := alt_srt_path folder base tgt in
  (writable env srt = false
   /\ o = Raise (OSError srt)
   /\ files w' = leave srt (write_debris env srt) (files w)
   /\ events w' = events w ++ [EvWrite srt])
  \/ (writable env srt = true /\ writable env alt = false
      /\ o = Raise (OSError alt)
      /\ files w' = leave alt (write_debris env alt)
                      (<[srt:=content]> (files w))
      /\ events w' = events w ++ [EvWrite srt; EvWrite alt])
  \/ (writable env srt = true /\ writable env alt = true
      /\ o = Ok tt
      /\ files w' = <[alt:=content]> (<[srt:=content]> (files w))
      /\ events w' = events w ++ [EvWrite srt; EvWrite alt]).
Proof.
  unfold write_subtitles, write_file. run_step.
  destruct (writable env (srt_path _ _ _)) eqn:Hs.
  - do 2 run_step. destruct (writable env (alt_srt_path _ _ _)) eqn:Ha.
    + run_last. intros [= <- <-]. right; right. cbn [files events].
      by rewrite <- app_assoc.
    + run_step. run_last. intros [= <- <-]. right; left. cbn [files events].
      by rewrite <- app_assoc.
  - do 2 run_step. intros [= <- <-]. by left.
Qed.

Lemma iso_map_spec (tgt alt : string) :
  iso_map !! tgt = Some alt
  <-> (tgt, alt) ∈ [("en", "eng"); ("it", "ita"); ("fr", "fra");
                    ("es", "spa"); ("de", "deu")].
Proof.
  unfold iso_map. symmetry. apply elem_of_list_to_map.
  apply (bool_decide_unpack _). by vm_compute.
Qed.

(** C5: the subtitle text is written under [B.T.srt] and under [B.A.srt],
    where [A] is what the table en:eng, it:ita, fr:fra, es:spa, de:deu gives
    for [T], and [T] itself when the table has no entry, in which case the
    two paths are one; after the two writes, and at the end of the video's
    run, both paths hold the same text, and for [en] they are [B.en.srt]
    and [B.eng.srt]. *)
Theorem C5_two_names_same_content (env : Env) (folder base tgt : string) :
  srt_path folder base tgt = Py.join folder (base +:+ "." +:+ tgt +:+ ".srt")
  /\ alt_srt_path folder base tgt
     = Py.join folder (base +:+ "." +:+ alt_lang_code tgt +:+ ".srt")
  /\ (forall alt, iso_map !! tgt = Some alt
        <-> (tgt, alt) ∈ [("en", "eng"); ("it", "ita"); ("fr", "fra");
                          ("es", "spa"); ("de", "deu")])
  /\ (forall alt, iso_map !! tgt = Some alt -> alt_lang_code tgt = alt)
  /\ (iso_map !! tgt = None ->
      alt_lang_code tgt = tgt
      /\ alt_srt_path folder base tgt = srt_path folder base tgt)
  /\ alt_srt_path folder base "en" = Py.join folder (base +:+ ".eng.srt")
  /\ (forall content w w',
        write_subtitles env folder base tgt content w = (w', Ok tt) ->
        files w' !! srt_path folder base tgt = Some content
        /\ files w' !! alt_srt_path folder base tgt = Some content
        /\ events w'
           = events w ++ [EvWrite (srt_path folder base tgt);
                          EvWrite (alt_srt_path folder base tgt)])
  /\ (forall src tr file report w w' report',
        base = Py.splitext_root file ->
        process_video env folder src tgt tr file report w = (w', Ok report') ->
        report'.2
        = report.2 ++ [(srt_path folder base tgt, alt_srt_path folder base tgt)]
        /\ exists content,
             files w' !! srt_path folder base tgt = Some content
             /\ files w' !! alt_srt_path folder base tgt = Some content).
Proof.
  split; [done|]. split; [done|]. split; [intros alt; apply iso_map_spec|].
  split; [by intros alt Halt; unfold alt_lang_code; rewrite Halt|].
  split.
  { intros Hnone. unfold alt_srt_path, alt_lang_code. by rewrite Hnone. }
  split; [done|]. split.
  - intros content w w' H.
    apply write_subtitles_run in H
      as [(_ & [=] & _) | [(_ & _ & [=] & _) | (_ & _ & _ & -> & ->)]].
    split; [|split; [apply lookup_insert_eq | done]].
    rewrite lookup_insert.
    case_decide; [done | apply lookup_insert_eq].
  - intros src tr file report w w' report' -> H.
    apply process_video_run in H as (out & fs & evs & nh & -> & Hrun).
    inversion Hrun; subst. split; [done|]. cbn [files].
    exists (srt_compose (build_subtitles segs')).
    rewrite !lookup_delete_ne by apply audio_ne_srt. split.
    + rewrite lookup_insert. case_decide; [done | apply lookup_insert_eq].
    + apply lookup_insert_eq.
Qed.

Lemma C5_two_names_same_content_witness :
  let w' := (write_subtitles demo_env "/v" "clip1" "en" "text" (world0 [])).1 in
  files w' !! srt_path "/v" "clip1" "en" = Some "text"
  /\ files w' !! alt_srt_path "/v" "clip1" "en" = Some "text"
  /\ events w'
     = events (world0 []) ++ [EvWrite (srt_path "/v" "clip1" "en");
                              EvWrite (alt_srt_path "/v" "clip1" "en")].
Proof.
  intros w'.
  destruct (C5_two_names_same_content demo_env "/v" "clip1" "en")
    as (_ & _ & _ & _ & _ & _ & H & _).
  apply H. vm_compute. reflexivity.
Defined.

(** C6 (as the code has it): assembly looks at no time range. Whatever the
    segments, it raises exactly when one of the two files cannot be
    written, the exception being that of the failing write; when both can
    be written it ends normally with the composed text under both names. *)
Theorem C6_assembly_fails_only_on_write (env : Env)
    (folder base tgt : string) (segs : list Segment) (w w' : World)
    (o : Outcome unit) :
  assemble env folder base tgt segs w = (w', o) ->
  let srt := srt_path folder base tgt in
  let alt := alt_srt_path folder base tgt in
  (o = Ok tt <-> writable env srt = true /\ writable env alt = true)
  /\ (forall e, o = Raise e ->
        (e = OSError srt /\ writable env srt = false)
        \/ (e = OSError alt /\ writable env alt = false))
  /\ (o = Ok tt ->
      files w' !! srt = Some (srt_compose (build_subtitles segs))
      /\ files w' !! alt = Some (srt_compose (build_subtitles segs))).
Proof.
  unfold assemble. intros H.
  apply write_subtitles_run in H
    as [(Hs & -> & _) | [(Hs & Ha & -> & _) | (Hs & Ha & -> & -> & _)]];
    cbn zeta.
  - split; [split; [discriminate | intros [? _]; congruence]|].
    split; [intros e [= <-]; by left | discriminate].
  - split; [split; [discriminate | intros [_ ?]; congruence]|].
    split; [intros e [= <-]; by right | discriminate].
  - split; [done|]. split; [discriminate|]. intros _. split.
    + rewrite lookup_insert. case_decide; [done | apply lookup_insert_eq].
    + apply lookup_insert_eq.
Qed.

Lemma C6_assembly_fails_only_on_write_witness :
  let r := assemble demo_env "/v" "clip" "en" out_of_order_segments
             (world0 []) in
  let srt := srt_path "/v" "clip" "en" in
  let alt := alt_srt_path "/v" "clip" "en" in
  (r.2 = Ok tt <-> writable demo_env srt = true /\ writable demo_env alt = true)
  /\ (forall e, r.2 = Raise e ->
        (e = OSError srt /\ writable demo_env srt = false)
        \/ (e = OSError alt /\ writable demo_env alt = false))
  /\ (r.2 = Ok tt ->
      files r.1 !! srt
      = Some (srt_compose (build_subtitles out_of_order_segments))
      /\ files r.1 !! alt
         = Some (srt_compose (build_subtitles out_of_order_segments))).
Proof.
  intros r.
  apply (C6_assembly_fails_only_on_write demo_env "/v" "clip" "en"
           out_of_order_segments (world0 []) r.1 r.2).
  vm_compute. reflexivity.
Defined.

(** C6 fails as stated: segments whose times go backwards are assembled
    and written like any others, and with writable files no segment
    sequence at all makes the assembly raise. *)
Lemma C6_counterexample :
  let r := assemble demo_env "/v" "clip" "en" out_of_order_segments
             (world0 []) in
  non_decreasing out_of_order_segments = false
  /\ r.2 = Ok tt
  /\ files r.1 !! "/v/clip.en.srt"
     = Some (srt_compose (build_subtitles out_of_order_segments))
  /\ time_range <$> build_subtitles out_of_order_segments
     = ["00:00:05,000 --> 00:00:06,000"; "00:00:01,000 --> 00:00:02,000"]
  /\ ~ (exists segs w e,
          non_decreasing segs = false
          /\ (assemble demo_env "/v" "clip" "en" segs w).2 = Raise e).
Proof.
  split; [reflexivity|]. split; [reflexivity|].
  split; [vm_compute; reflexivity|]. split; [vm_compute; reflexivity|].
  intros (segs & w & e & _ & H).
  destruct (assemble demo_env "/v" "clip" "en" segs w) as [w' o] eqn:E.
  unfold assemble in E.
  apply write_subtitles_run in E
    as [(Hs & _) | [(_ & Ha & _) | (_ & _ & -> & _)]]; discriminate.
Qed.

(** ** Subtitle entries *)







(** ** Time codes *)

Lemma has_dot_append (a b : string) :
  has_dot (a +:+ b) = has_dot a || has_dot b.
Proof.
  induction a as [|c a IH]; [done|].
  rewrite append_cons. simpl. by rewrite IH, orb_assoc.
Qed.

Lemma has_dot_zeros (n : nat) : has_dot (zeros n) = false.
Proof. induction n as [|n IH]; [done|]. simpl. exact IH. Qed.

Lemma has_dot_uint (d : Decimal.uint) :
  has_dot (NilEmpty.string_of_uint d) = false.
Proof. induction d; simpl; done. Qed.

Lemma has_dot_str_of_nat (n : nat) : has_dot (str_of_nat n) = false.
Proof.
  unfold str_of_nat, NilZero.string_of_uint.
  destruct (Nat.to_uint n) eqn:E; try done; rewrite <- E; apply has_dot_uint.
Qed.

Lemma has_dot_fmt_d (width : nat) (z : Z) : has_dot (fmt_d width z) = false.
Proof.
  unfold fmt_d. destruct (z <? 0)%Z; cbn [has_dot];
    by rewrite has_dot_append, has_dot_zeros, has_dot_str_of_nat.
Qed.

Lemma length_fmt_d_3 (ms : Z) :
  (0 <= ms < 1000)%Z -> String.length (fmt_d 3 ms) = 3%nat.
Proof.
  intros Hms.
  assert (forallb (fun n => Nat.eqb (String.length (fmt_d 3 (Z.of_nat n))) 3)
            (seq 0 1000) = true) as Hall by (vm_compute; reflexivity).
  rewrite forallb_forall in Hall.
  specialize (Hall (Z.to_nat ms)). rewrite Z2Nat.id in Hall by lia.
  apply Nat.eqb_eq, Hall, in_seq. lia.
Qed.

Lemma get_separator (p d : string) (c : ascii) :
  String.length d = 3%nat -> ms_separator (p +:+ String c d) = Some c.
Proof.
  intros Hd. unfold ms_separator. rewrite length_append. cbn [String.length].
  rewrite Hd.
  replace (String.length p + 4 - 4)%nat with (0 + String.length p)%nat by lia.
  by rewrite <- append_correct2.
Qed.

(** C7 (as the code has it): in the serialized text the time range of an
    entry is [start --> end], and in every time code the three millisecond
    digits follow a comma; a time code contains no dot at all. *)
Theorem C7_milliseconds_after_comma (t : Z) (sub : Subtitle) :
  ms_separator (timedelta_to_srt_timestamp t) = Some ","%char
  /\ has_dot (timedelta_to_srt_timestamp t) = false
  /\ has_dot (time_range sub) = false
  /\ to_srt sub
     = fmt_d 0 (sub_index sub) +:+ eol
       +:+ timedelta_to_srt_timestamp (sub_start sub) +:+ " --> "
       +:+ timedelta_to_srt_timestamp (sub_end sub) +:+ eol
       +:+ sub_content sub +:+ eol +:+ eol.
Proof.
  assert (forall t', has_dot (timedelta_to_srt_timestamp t') = false) as Hdot.
  { intros t'. unfold timedelta_to_srt_timestamp. cbv zeta.
    by rewrite !has_dot_append, !has_dot_fmt_d. }
  split; [|split; [apply Hdot|split]].
  - unfold timedelta_to_srt_timestamp. cbv zeta.
    rewrite <- !append_assoc. rewrite (append_assoc _ "," _).
    apply (get_separator _ (fmt_d 3 (t mod 1000000 / 1000)) ","%char).
    apply length_fmt_d_3.
    pose proof (Z.mod_pos_bound t 1000000 ltac:(lia)).
    split; [apply Z.div_pos; lia|]. apply Z.div_lt_upper_bound; lia.
  - unfold time_range. by rewrite !has_dot_append, !Hdot.
  - unfold to_srt, time_range. by rewrite !append_assoc.
Qed.

(** C7 fails as stated: the time codes of the segment from 0 to 2.5
    seconds are written with a comma in front of the milliseconds. *)
Lemma C7_counterexample :
  let sub := mkSubtitle 1 (timedelta 0) (timedelta (5 # 2)) "Hello" in
  time_range sub = "00:00:00,000 --> 00:00:02,500"
  /\ ms_separator (timedelta_to_srt_timestamp (sub_end sub)) <> Some "."%char.
Proof. vm_compute. split; [reflexivity | discriminate]. Qed.

(** * Further properties *)

(** ** The checks made before [main] *)

Lemma collect_missing_inr (host : Host) (modules missing l : list string) :
  collect_missing host modules missing = inr l ->
  l = missing ++ List.filter (fun m => negb (importable host m)) modules.
Proof.
  revert missing. induction modules as [|m modules IH]; intros missing.
  - intros [= <-]. by rewrite app_nil_r.
  - cbn [collect_missing List.filter].
    destruct (importable host m); cbn [negb]; [apply IH|].
    destruct (raises_import_error host m); [|discriminate].
    intros H. apply IH in H. by rewrite <- app_assoc in H.
Qed.

Lemma collect_missing_inl (host : Host) (modules missing : list string)
    (m : string) :
  collect_missing host modules missing = inl m ->
  m ∈ modules /\ importable host m = false
  /\ raises_import_error host m = false.
Proof.
  revert missing. induction modules as [|x modules IH]; intros missing;
    [discriminate|].
  cbn [collect_missing].
  destruct (importable host x) eqn:Hx.
  - intros H. apply IH in H as (? & ? & ?). split; [by right | done].
  - destruct (raises_import_error host x) eqn:Hr.
    + intros H. apply IH in H as (? & ? & ?). split; [by right | done].
    + intros [= <-]. split; [by left | done].
Qed.

Lemma collect_missing_caught (host : Host) (modules missing : list string) :
  (forall m, m ∈ modules -> importable host m = false ->
     raises_import_error host m = true) ->
  collect_missing host modules missing
  = inr (missing ++ List.filter (fun m => negb (importable host m)) modules).
Proof.
  intros H.
  destruct (collect_missing host modules missing) as [m|l] eqn:E.
  - apply collect_missing_inl in E as (Hin & Himp & Hr).
    rewrite (H m Hin Himp) in Hr. discriminate.
  - by rewrite (collect_missing_inr _ _ _ _ E).
Qed.

Lemma filter_nil_iff {A} (f : A -> bool) (l : list A) :
  List.filter f l = [] <-> forall x, x ∈ l -> f x = false.
Proof.
  induction l as [|a l IH]; cbn [List.filter].
  - split; [intros _ x Hx; by apply elem_of_nil in Hx | done].
  - destruct (f a) eqn:Hfa.
    + split; [discriminate|]. intros H. specialize (H a (list_elem_of_here _ _)).
      congruence.
    + rewrite IH. split.
      * intros H x Hx. apply elem_of_cons in Hx as [-> | Hx]; auto.
      * intros H x Hx. apply H. by right.
Qed.

(** X1: the lines before [main] fall through to [main] exactly when the
    five required modules and [transformers] can be imported, [whisper] has
    [load_model], [ffmpeg -version] and [ffsubsync --help] both succeed; in
    that case they print nothing. *)
Theorem startup_proceeds_iff (host : Host) :
  ((startup host).2 = Proceed
   <-> (forall m, m ∈ required_modules -> importable host m = true)
       /\ importable host "transformers" = true
       /\ whisper_has_load_model host = true
       /\ command_ok host ["ffmpeg"; "-version"] = true
       /\ command_ok host ["ffsubsync"; "--help"] = true)
  /\ ((startup host).2 = Proceed -> (startup host).1 = []).
Proof.
  unfold startup.
  destruct (collect_missing host required_modules []) as [m|missing] eqn:Hc.
  { apply collect_missing_inl in Hc as (Hin & Himp & _).
    split; [|discriminate]. split; [discriminate|]. intros (Hreq & _).
    rewrite (Hreq m Hin) in Himp. discriminate. }
  apply collect_missing_inr in Hc. rewrite app_nil_l in Hc. subst missing.
  destruct (List.filter _ required_modules) as [|m0 ms] eqn:Hmiss.
  - assert (forall m, m ∈ required_modules -> importable host m = true) as Hreq.
    { intros m Hm. apply (proj1 (filter_nil_iff _ _)) with (x := m) in Hmiss;
        [|done]. by destruct (importable host m). }
    unfold check_command. cbn [String.eqb Ascii.eqb Bool.eqb].
    destruct (importable host "transformers"); cbn [negb].
    2:{ split; [|by destruct (raises_import_error host "transformers")].
        split; [by destruct (raises_import_error host "transformers")
               | intros (_ & [=] & _)]. }
    destruct (whisper_has_load_model host); cbn [negb];
      [|split; [split; [discriminate | intros (_ & _ & [=] & _)] | discriminate]].
    destruct (command_ok host ["ffmpeg"; "-version"]); cbn [negb];
      [|split; [split; [discriminate | intros (_ & _ & _ & [=] & _)]
               | discriminate]].
    destruct (command_ok host ["ffsubsync"; "--help"]); cbn [negb];
      [|split; [split; [discriminate | intros (_ & _ & _ & _ & [=])]
               | discriminate]].
    split; [|done]. split; [done|]. done.
  - split; [|discriminate]. split; [discriminate|]. intros (Hreq & _).
    assert (m0 ∈ List.filter (fun m => negb (importable host m)) required_modules)
      as Hin by (rewrite Hmiss; by left).
    apply list_elem_of_In, filter_In in Hin as [Hin Hneg].
    apply list_elem_of_In, Hreq in Hin. by rewrite Hin in Hneg.
Qed.

(** X2: when at least one required module cannot be imported and every
    failing import among the required modules raises [ImportError], the
    checks end with [sys.exit(1)] after two lines that name exactly the
    modules that cannot be imported, in the order of the list of line 10;
    nothing else is checked. When the import of a required module raises
    another exception, that exception escapes and nothing is printed. *)
Theorem startup_reports_missing_modules (host : Host) :
  ((forall m, m ∈ required_modules -> importable host m = false ->
      raises_import_error host m = true) ->
   forall m, m ∈ required_modules -> importable host m = false ->
     let missing :=
       List.filter (fun m => negb (importable host m)) required_modules in
     m ∈ missing
     /\ startup host
        = (["Missing Python dependencies: " +:+ str_join ", " missing;
            "Please install them using: pip install "
              +:+ str_join " " missing],
           Exit 1))
  /\ (forall m, (startup host).2 = Crash m ->
        (startup host).1 = []
        /\ (m ∈ required_modules \/ m = "transformers")
        /\ importable host m = false
        /\ raises_import_error host m = false)
  /\ (forall m, m ∈ required_modules -> importable host m = false ->
        raises_import_error host m = false ->
        exists m', (startup host).2 = Crash m').
Proof.
  split; [|split].
  - intros Hcaught m Hm Himp missing.
    assert (m ∈ missing) as Hin.
    { apply list_elem_of_In, filter_In. split; [by apply list_elem_of_In|].
      by rewrite Himp. }
    split; [done|]. unfold startup.
    rewrite collect_missing_caught, app_nil_l by done.
    fold missing. destruct missing as [|m0 ms]; [by apply elem_of_nil in Hin|].
    done.
  - intros m. unfold startup.
    destruct (collect_missing host required_modules []) as [m'|missing] eqn:Hc.
    + intros [= <-]. apply collect_missing_inl in Hc as (? & ? & ?).
      split; [done|]. split; [by left | done].
    + destruct missing; [|discriminate].
      destruct (importable host "transformers") eqn:Ht; cbn [negb].
      * repeat case_match; discriminate.
      * destruct (raises_import_error host "transformers") eqn:Hr;
          [discriminate|]. intros [= <-]. split; [done|]. split; [by right|done].
  - intros m Hm Himp Hr. unfold startup.
    destruct (collect_missing host required_modules []) as [m'|missing] eqn:Hc;
      [by exists m'|].
    exfalso. revert Hc. generalize (@nil string).
    induction required_modules as [|x l IH]; intros acc;
      [by apply elem_of_nil in Hm|].
    cbn [collect_missing]. apply elem_of_cons in Hm as [<- | Hm].
    + rewrite Himp, Hr. discriminate.
    + destruct (importable host x); [by apply IH|].
      destruct (raises_import_error host x); [by apply IH | discriminate].
Qed.

(** X3: [main] is run only when every check passed, and then the run of
    the file is the run of [main]; otherwise the file ends with exit
    status 1, with the [ImportError] of [transformers], or with the
    exception another failing import raised, having read no input, called
    no service and changed no file. *)
Theorem script_runs_main_only_after_checks (host : Host) (env : Env)
    (w w' : World) (e : ScriptEnd) :
  script host env w = (w', e) ->
  match e with
  | Ran o =>
      (startup host).2 = Proceed /\ main env w = (w', o)
  | Stopped s =>
      (s = Exit 1 \/ s = ImportError "transformers"
       \/ exists m, s = Crash m
                    /\ (m ∈ required_modules \/ m = "transformers")
                    /\ importable host m = false
                    /\ raises_import_error host m = false)
      /\ stdin w' = stdin w /\ files w' = files w /\ events w' = events w
      /\ next_handle w' = next_handle w
  end.
Proof.
  unfold script. destruct (startup host) as [out s] eqn:Hs.
  pose proof (startup_proceeds_iff host) as [_ Hout]. rewrite Hs in Hout.
  pose proof (proj1 (proj2 (startup_reports_missing_modules host))) as Hcrash.
  rewrite Hs in Hcrash. cbn [fst snd] in Hout, Hcrash.
  destruct s.
  - rewrite (Hout eq_refl), app_nil_r.
    replace (mkWorld (stdin w) (stdout w) (files w) (events w) (next_handle w))
      with w by (by destruct w).
    destruct (main env w) as [w1 o]. intros [= <- <-]. done.
  - intros [= <- <-]. cbn [stdin files events next_handle].
    split; [|done]. left. revert Hs. unfold startup.
    repeat case_match; intros [= <- <-]; done.
  - intros [= <- <-]. cbn [stdin files events next_handle].
    split; [|done]. right; left. revert Hs. unfold startup.
    repeat case_match; intros [= <- <-]; done.
  - intros [= <- <-]. cbn [stdin files events next_handle].
    split; [|done]. right; right. exists module.
    destruct (Hcrash module eq_refl) as (_ & ? & ? & ?). done.
Qed.

Lemma startup_proceeds_iff_witness :
  (startup demo_host).2 = Proceed /\ (startup demo_host).1 = [].
Proof.
  assert ((startup demo_host).2 = Proceed) as H.
  { apply (proj1 (startup_proceeds_iff demo_host)). by repeat split. }
  split; [exact H|]. exact (proj2 (startup_proceeds_iff demo_host) H).
Defined.

Lemma startup_reports_missing_modules_witness :
  "tqdm" ∈ ["fairseq"; "tqdm"]
  /\ startup demo_host_missing
     = (["Missing Python dependencies: fairseq, tqdm";
         "Please install them using: pip install fairseq tqdm"],
        Exit 1).
Proof.
  apply (proj1 (startup_reports_missing_modules demo_host_missing)
           (fun m _ _ => eq_refl) "tqdm").
  - do 4 right. left.
  - reflexivity.
Defined.

Lemma script_runs_main_only_after_checks_witness :
  let r := script demo_host_missing demo_env (world0 demo_lines) in
  match r.2 with
  | Ran o =>
      (startup demo_host_missing).2 = Proceed
      /\ main demo_env (world0 demo_lines) = (r.1, o)
  | Stopped s =>
      (s = Exit 1 \/ s = ImportError "transformers"
       \/ exists m, s = Crash m
                    /\ (m ∈ required_modules \/ m = "transformers")
                    /\ importable demo_host_missing m = false
                    /\ raises_import_error demo_host_missing m = false)
      /\ stdin r.1 = stdin (world0 demo_lines)
      /\ files r.1 = files (world0 demo_lines)
      /\ events r.1 = events (world0 demo_lines)
      /\ next_handle r.1 = next_handle (world0 demo_lines)
  end.
Proof.
  intros r.
  apply (script_runs_main_only_after_checks demo_host_missing demo_env
           (world0 demo_lines) r.1 r.2).
  vm_compute. reflexivity.
Defined.

(** ** The dialogue, line by line *)

Lemma selection_loop_cons (n : nat) (line : string) (rest : list string) :
  selection_loop n (line :: rest)
  = match accepted n line with
    | Some idxs => (Ok idxs, rest, [select_prompt])
    | None =>
        let '(o, rest', out) := selection_loop n rest in
        (o, rest',
         select_prompt
           :: match mapM Py.int (Py.split (Py.strip line)) with
              | Some _ =>
                  "One or more numbers are out of range. Please try again."
              | None =>
                  "Invalid input. Please enter numbers separated by spaces."
              end
           :: out)
    end.
Proof.
  cbn [selection_loop]. unfold accepted.
  destruct (mapM Py.int (Py.split (Py.strip line))) as [idxs|]; [|done].
  by destruct (existsb (out_of_range n) idxs).
Qed.

(** X4: the selection loop is decided by the first acceptable line: the
    lines before it are each answered by one message and a new prompt, the
    lines after it are left unread; when no line is acceptable the loop
    ends with [EOFError] after reading them all. No other exception leaves
    the loop. *)
Theorem selection_loop_first_acceptable (n : nat) (bad : list string) :
  Forall (fun l => accepted n l = None) bad ->
  (forall good rest idxs,
     accepted n good = Some idxs ->
     exists out,
       selection_loop n (bad ++ good :: rest) = (Ok idxs, rest, out)
       /\ length out = (2 * length bad + 1)%nat)
  /\ (exists out,
        selection_loop n bad = (Raise EOFError, [], out)
        /\ length out = (2 * length bad + 1)%nat).
Proof.
  induction 1 as [|l bad Hl _ IH].
  - split.
    + intros good rest idxs Hg. exists [select_prompt].
      cbn [app]. by rewrite selection_loop_cons, Hg.
    + by exists [select_prompt].
  - destruct IH as [IHok (oute & IHe & Hlen)]. split.
    + intros good rest idxs Hg.
      destruct (IHok good rest idxs Hg) as (out & Ho & Hlo).
      cbn [app]. rewrite selection_loop_cons, Hl, Ho.
      eexists. split; [reflexivity|]. simpl. lia.
    + rewrite selection_loop_cons, Hl, IHe.
      eexists. split; [reflexivity|]. simpl. lia.
Qed.

Lemma selection_loop_raise (n : nat) (lines rest out : list string) (e : exn) :
  selection_loop n lines = (Raise e, rest, out) -> e = EOFError.
Proof.
  revert rest out. induction lines as [|l lines IH]; intros rest out.
  - by intros [= <- _ _].
  - rewrite selection_loop_cons. destruct (accepted n l); [discriminate|].
    destruct (selection_loop n lines) as [[o r] pr]. intros [= -> _ _].
    by eapply IH.
Qed.

Lemma language_loop_raise (lines rest out : list string) (e : exn) :
  language_loop lines = (Raise e, rest, out) -> e = EOFError.
Proof.
  assert (forall n lines rest out, (length lines <= n)%nat ->
    language_loop lines = (Raise e, rest, out) -> e = EOFError) as Hgen;
    [|by apply (Hgen (length lines) lines rest out)].
  clear lines rest out. intros n.
  induction n as [|n IH]; intros lines rest out Hn H;
    (destruct lines as [|l1 lines]; [by injection H as <- _ _|]);
    [simpl in Hn; lia|].
  cbn [language_loop] in H.
  destruct (is_language (Py.lower (Py.strip l1))); cbn [negb] in H.
  - destruct lines as [|l2 lines]; [by injection H as <- _ _|].
    destruct (is_language (Py.lower (Py.strip l2))); cbn [negb] in H;
      [discriminate|].
    destruct (language_loop lines) as [[o r] pr] eqn:Hl.
    injection H as -> _ _. eapply (IH lines); [simpl in Hn; lia | exact Hl].
  - destruct (language_loop lines) as [[o r] pr] eqn:Hl.
    injection H as -> _ _. eapply (IH lines); [simpl in Hn; lia | exact Hl].
Qed.

(** X5: the selection loop and the language loop end abnormally only
    with the [EOFError] of [input()] when the input runs out: the
    [ValueError] of a token that is not a number is caught, and for a
    selection the loop accepted the indexing of line 111 never raises
    [IndexError]. *)
Theorem dialogue_loops_raise_only_eof (video_files : list string) :
  (forall lines rest out e,
     selection_loop (length video_files) lines = (Raise e, rest, out) ->
     e = EOFError /\ rest = [])
  /\ (forall lines rest out idxs,
        selection_loop (length video_files) lines = (Ok idxs, rest, out) ->
        is_Some (select_files video_files idxs))
  /\ (forall lines rest out e,
        language_loop lines = (Raise e, rest, out) -> e = EOFError).
Proof.
  split; [|split].
  - intros lines. induction lines as [|l lines IH]; intros rest out e.
    + by intros [= <- <- _].
    + rewrite selection_loop_cons.
      destruct (accepted (length video_files) l); [discriminate|].
      destruct (selection_loop (length video_files) lines) as [[o r] pr].
      intros [= -> -> _]. by eapply IH.
  - intros lines rest out idxs H.
    apply selection_loop_ok in H as (l & _ & _ & Hrange).
    destruct (select_files_ok video_files idxs Hrange) as (sel & -> & _).
    by exists sel.
  - intros lines rest out e. apply language_loop_raise.
Qed.

Lemma selection_loop_first_acceptable_witness :
  (forall good rest idxs,
     accepted 2 good = Some idxs ->
     exists out,
       selection_loop 2 (["x"; "0"; "1 3"] ++ good :: rest) = (Ok idxs, rest, out)
       /\ length out = (2 * length ["x"; "0"; "1 3"] + 1)%nat)
  /\ (exists out,
        selection_loop 2 ["x"; "0"; "1 3"] = (Raise EOFError, [], out)
        /\ length out = (2 * length ["x"; "0"; "1 3"] + 1)%nat).
Proof.
  apply (selection_loop_first_acceptable 2 ["x"; "0"; "1 3"]).
  repeat constructor.
Defined.

Lemma dialogue_loops_raise_only_eof_witness :
  is_Some (select_files ["a.mp4"; "b.mp4"] [2%Z; 2%Z])
  /\ EOFError = EOFError /\ @nil string = [].
Proof.
  split.
  - apply (proj1 (proj2 (dialogue_loops_raise_only_eof ["a.mp4"; "b.mp4"]))
             ["x"; "2 2"; "1"] ["1"]
             [select_prompt;
              "Invalid input. Please enter numbers separated by spaces.";
              select_prompt] [2%Z; 2%Z]).
    reflexivity.
  - apply (proj1 (dialogue_loops_raise_only_eof ["a.mp4"; "b.mp4"])
             ["x"; "3"] []
             [select_prompt;
              "Invalid input. Please enter numbers separated by spaces.";
              select_prompt;
              "One or more numbers are out of range. Please try again.";
              select_prompt] EOFError).
    reflexivity.
Defined.

(** X6: when the first input line does not name a directory, or names one
    without any [.mp4] entry, [main] prints one message and ends with
    [sys.exit(1)]: only that line was read, no service was called and no
    file was changed. *)
Theorem main_exits_without_videos (env : Env) (w : World) (line : string)
    (rest : list string) :
  stdin w = line :: rest ->
  isdir env (folder_of line) = false
  \/ video_files_of (listdir env (folder_of line)) = [] ->
  exists w' msg,
    main env w = (w', Raise (SystemExit 1))
    /\ stdin w' = rest /\ files w' = files w /\ events w' = events w
    /\ stdout w'
       = stdout w ++ ["Enter the path to the folder with video files:"; msg].
Proof.
  intros Hin Hbad. unfold main, bind at 1, front_end. run_step.
  rewrite bind_input. cbn [stdin stdout files events next_handle].
  rewrite Hin. fold (folder_of line).
  destruct (isdir env (folder_of line)) eqn:Hdir; cbn [negb].
  - destruct Hbad as [[=] | ->]. run_step. unfold raise.
    eexists _, _. split; [reflexivity|]. cbn [stdin stdout files events].
    by rewrite <- app_assoc.
  - run_step. unfold raise.
    eexists _, _. split; [reflexivity|]. cbn [stdin stdout files events].
    by rewrite <- app_assoc.
Qed.

Lemma main_exits_without_videos_witness :
  exists w' msg,
    main demo_env_no_video (world0 ["/v"; "1"]) = (w', Raise (SystemExit 1))
    /\ stdin w' = ["1"] /\ files w' = files (world0 ["/v"; "1"])
    /\ events w' = events (world0 ["/v"; "1"])
    /\ stdout w'
       = stdout (world0 ["/v"; "1"])
           ++ ["Enter the path to the folder with video files:"; msg].
Proof.
  apply (main_exits_without_videos demo_env_no_video (world0 ["/v"; "1"])
           "/v" ["1"]).
  - reflexivity.
  - right. reflexivity.
Defined.

Lemma lstrip_blank (s : string) : blank s = true -> Py.lstrip s = EmptyString.
Proof.
  induction s as [|c s IH]; [done|]. cbn [blank Py.lstrip].
  intros [Hc Hs]%andb_true_iff. rewrite Hc. by apply IH.
Qed.

Lemma strip_blank (s : string) : blank s = true -> Py.strip s = EmptyString.
Proof. intros H. unfold Py.strip. by rewrite (lstrip_blank s H). Qed.

(** X7: a selection line that is empty or all white space is accepted as
    the empty selection. [main] then still builds the translation
    pipeline, processes nothing, changes no file and prints its report. *)
Theorem empty_selection_is_accepted (env : Env) :
  (forall n line rest,
     blank line = true ->
     selection_loop n (line :: rest) = (Ok [], rest, [select_prompt]))
  /\ (forall video_files, select_files video_files [] = Some [])
  /\ (forall folder src_lang tgt_lang w,
        pipeline_ok env = true ->
        exists w',
          back_end env folder [] src_lang tgt_lang w = (w', Ok tt)
          /\ files w' = files w
          /\ events w' = events w ++ [EvPipeline (next_handle w)]).
Proof.
  split; [|split].
  - intros n line rest Hb. cbn [selection_loop]. by rewrite (strip_blank line Hb).
  - done.
  - intros folder src_lang tgt_lang w Hp.
    unfold back_end, init_translator. do 2 run_step. rewrite Hp. run_step.
    unfold process_all. cbn [for_each]. run_step.
    match goal with |- context [final_report ?r ?w1] =>
      destruct (final_report_run r w1) as [out ->] end.
    eexists. split; [reflexivity|]. done.
Qed.

Lemma empty_selection_is_accepted_witness :
  selection_loop 2 ["  "; "1"] = (Ok [], ["1"], [select_prompt])
  /\ exists w',
       back_end demo_env "/v" [] "it" "en" (world0 []) = (w', Ok tt)
       /\ files w' = files (world0 [])
       /\ events w' = events (world0 []) ++ [EvPipeline (next_handle (world0 []))].
Proof.
  split.
  - apply (proj1 (empty_selection_is_accepted demo_env) 2%nat "  " ["1"]).
    reflexivity.
  - apply (proj2 (proj2 (empty_selection_is_accepted demo_env))
             "/v" "it" "en" (world0 [])).
    reflexivity.
Defined.

Lemma is_language_spec (code : string) :
  is_language code = true <-> code ∈ ["it"; "en"; "fr"; "es"; "de"].
Proof. unfold is_language. by rewrite bool_decide_eq_true. Qed.

(** X8: the language loop accepts exactly pairs of codes of the table of
    lines 114-120, taken from two consecutive input lines, stripped and in
    lower case; the remaining input is what follows them. Two such lines
    are accepted at once, also when they name the same language, and
    after a bad target code the source code is asked again. *)
Theorem language_loop_accepts_table_codes (lines : list string) :
  (forall src tgt rest out,
     language_loop lines = (Ok (src, tgt), rest, out) ->
     src ∈ ["it"; "en"; "fr"; "es"; "de"]
     /\ tgt ∈ ["it"; "en"; "fr"; "es"; "de"]
     /\ exists pre l1 l2,
          lines = pre ++ l1 :: l2 :: rest
          /\ src = Py.lower (Py.strip l1) /\ tgt = Py.lower (Py.strip l2))
  /\ (forall l1 l2,
        is_language (Py.lower (Py.strip l1)) = true ->
        (is_language (Py.lower (Py.strip l2)) = true ->
         language_loop (l1 :: l2 :: lines)
         = (Ok (Py.lower (Py.strip l1), Py.lower (Py.strip l2)), lines,
            ["Enter the source language code:";
             "Enter the target language code:"]))
        /\ (is_language (Py.lower (Py.strip l2)) = false ->
            (language_loop (l1 :: l2 :: lines)).1 = (language_loop lines).1)).
Proof.
  split.
  - assert (forall n lines src tgt rest out, (length lines <= n)%nat ->
      language_loop lines = (Ok (src, tgt), rest, out) ->
      exists pre l1 l2,
        lines = pre ++ l1 :: l2 :: rest
        /\ src = Py.lower (Py.strip l1) /\ tgt = Py.lower (Py.strip l2))
      as Hgen.
    { clear lines. intros n.
      induction n as [|n IH]; intros lines src tgt rest out Hn H;
        (destruct lines as [|l1 lines]; [discriminate H|]);
        [simpl in Hn; lia|].
      cbn [language_loop] in H.
      destruct (is_language (Py.lower (Py.strip l1))); cbn [negb] in H.
      - destruct lines as [|l2 lines]; [discriminate H|].
        destruct (is_language (Py.lower (Py.strip l2))); cbn [negb] in H.
        + injection H as <- <- <- _. by exists [], l1, l2.
        + destruct (language_loop lines) as [[o r] pr] eqn:Hl.
          injection H as -> -> _.
          destruct (IH lines src tgt rest pr) as (pre & a & b & -> & Hs & Ht);
            [simpl in Hn; lia | done |].
          by exists (l1 :: l2 :: pre), a, b.
      - destruct (language_loop lines) as [[o r] pr] eqn:Hl.
        injection H as -> -> _.
        destruct (IH lines src tgt rest pr) as (pre & a & b & -> & Hs & Ht);
          [simpl in Hn; lia | done |].
        by exists (l1 :: pre), a, b. }
    intros src tgt rest out H.
    destruct (language_loop_ok _ _ _ _ _ H) as [Hs Ht].
    split; [by apply is_language_spec|]. split; [by apply is_language_spec|].
    by eapply (Hgen (length lines)).
  - intros l1 l2 H1. split; intros H2; cbn [language_loop];
      rewrite H1, H2; cbn [negb]; [done|].
    by destruct (language_loop lines) as [[o r] pr].
Qed.

Lemma language_loop_accepts_table_codes_witness :
  language_loop (" EN " :: "en" :: ["x"])
  = (Ok (Py.lower (Py.strip " EN "), Py.lower (Py.strip "en")), ["x"],
     ["Enter the source language code:"; "Enter the target language code:"]).
Proof.
  apply (proj1 (proj2 (language_loop_accepts_table_codes ["x"]) " EN " "en"
                  eq_refl)).
  reflexivity.
Defined.

(** ** Output names *)

Lemma append_eq_same_length (a b s t : string) :
  String.length a = String.length b -> a +:+ s = b +:+ t -> a = b /\ s = t.
Proof.
  revert b. induction a as [|x a IH]; intros [|y b] Hlen H;
    try discriminate Hlen.
  - done.
  - rewrite !append_cons in H. injection H as -> H.
    injection Hlen as Hlen. destruct (IH b Hlen H) as [-> ->]. done.
Qed.

Lemma append_inj_r (a b s : string) : a +:+ s = b +:+ s -> a = b.
Proof.
  intros H. apply (append_eq_same_length a b s s); [|done].
  apply (f_equal String.length) in H. rewrite !length_append in H. lia.
Qed.

(** Subtitle file names of one video only coincide for one code. *)
Lemma srt_filename_inj (folder base c1 c2 : string) :
  Py.join folder (srt_filename base c1) = Py.join folder (srt_filename base c2)
  -> c1 = c2.
Proof.
  unfold srt_filename.
  change (base +:+ "." +:+ c1 +:+ ".srt")
    with (base +:+ String "." (c1 +:+ ".srt")).
  change (base +:+ "." +:+ c2 +:+ ".srt")
    with (base +:+ String "." (c2 +:+ ".srt")).
  intros H. apply join_same_head in H; [|apply startswith_sep_base].
  apply String.app_inj in H. injection H as H. by apply append_inj_r in H.
Qed.

(** X9: every target code the dialogue accepts has a three-letter code in
    the table of line 190, different from it, so that the two subtitle
    files of a video always have different paths: within [main] the
    fallback of [iso_map.get] is never used. *)
Theorem accepted_target_gives_two_files (tgt : string) :
  is_language tgt = true ->
  exists alt,
    iso_map !! tgt = Some alt
    /\ alt_lang_code tgt = alt
    /\ String.length alt = 3%nat
    /\ forall folder base,
         alt_srt_path folder base tgt <> srt_path folder base tgt.
Proof.
  intros H. apply is_language_spec in H.
  assert (exists alt, iso_map !! tgt = Some alt /\ String.length alt = 3%nat
                      /\ alt <> tgt) as (alt & Hlook & Hlen & Hne).
  { repeat (apply elem_of_cons in H as [-> | H]);
      [eexists; (split; [vm_compute; reflexivity|]); split; [done | discriminate]..|].
    by apply elem_of_nil in H. }
  exists alt. split; [done|].
  assert (alt_lang_code tgt = alt) as Halt
    by (unfold alt_lang_code; by rewrite Hlook).
  split; [done|]. split; [done|]. intros folder base Heq.
  unfold alt_srt_path, srt_path in Heq. rewrite Halt in Heq.
  by apply srt_filename_inj in Heq.
Qed.

Lemma accepted_target_gives_two_files_witness :
  exists alt,
    iso_map !! "de" = Some alt
    /\ alt_lang_code "de" = alt
    /\ String.length alt = 3%nat
    /\ forall folder base,
         alt_srt_path folder base "de" <> srt_path folder base "de".
Proof. apply (accepted_target_gives_two_files "de"). reflexivity. Defined.

Lemma wav_ne_srt (a b : string) : a +:+ ".wav" <> b +:+ ".srt".
Proof.
  intros H. apply append_eq_same_length in H as [_ [=]].
  apply (f_equal String.length) in H. rewrite !length_append in H.
  simpl in H. lia.
Qed.

(** No audio file is a subtitle file, of whatever video. *)
Lemma audio_ne_any_srt (folder b1 b2 code : string) :
  audio_path folder b1 <> Py.join folder (srt_filename b2 code).
Proof.
  unfold audio_path, srt_filename.
  destruct (join_suffix folder (b1 +:+ ".wav")) as [p1 ->].
  destruct (join_suffix folder (b2 +:+ "." +:+ code +:+ ".srt")) as [p2 ->].
  rewrite <- !append_assoc. apply wav_ne_srt.
Qed.

(** ** The files after a video and after a batch *)

Section Effects.

Variable env : Env.
Variables folder src_lang tgt_lang : string.
Variable tr : nat.

Lemma video_ok_effect (file : string) (report report' : Report)
    (w w' : World) :
  process_video env folder src_lang tgt_lang tr file report w
    = (w', Ok report') ->
  let base := Py.splitext_root file in
  let audio := audio_path folder base in
  let srt := srt_path folder base tgt_lang in
  let alt := alt_srt_path folder base tgt_lang in
  files w' !! audio = None
  /\ is_Some (files w' !! srt) /\ is_Some (files w' !! alt)
  /\ (forall q, q <> audio -> q <> srt -> q <> alt ->
        files w' !! q = files w !! q)
  /\ (forall q, q <> audio -> is_Some (files w !! q) -> is_Some (files w' !! q))
  /\ report' = (report.1 ++ [file],
                report.2 ++ [output_pair folder tgt_lang file])
  /\ stdin w' = stdin w.
Proof.
  intros H base audio srt alt.
  apply process_video_run in H as (out & fs & evs & nh & -> & Hrun).
  inversion Hrun; subst. cbn [files stdin].
  assert (audio <> srt) as Hs by apply audio_ne_srt.
  assert (audio <> alt) as Ha by apply audio_ne_srt.
  split; [apply lookup_delete_eq|].
  split; [rewrite lookup_delete_ne by done;
          rewrite !lookup_insert_is_Some'; by right; left|].
  split; [rewrite lookup_delete_ne by done;
          rewrite !lookup_insert_is_Some'; by left|].
  split.
  { intros q Hq1 Hq2 Hq3. rewrite lookup_delete_ne by done.
    by rewrite !lookup_insert_ne by done. }
  split; [|done].
  intros q Hq Hsome. rewrite lookup_delete_ne by done.
  rewrite !lookup_insert_is_Some'. by do 3 right.
Qed.

(** X10: a run of the loop body that ends normally leaves every file
    other than the video's audio file and its two subtitle files as it
    was; both subtitle files exist afterwards and the audio path is empty,
    also when a file of that name was there before the run. *)
Theorem successful_video_touches_three_paths (file : string)
    (report report' : Report) (w w' : World) :
  process_video env folder src_lang tgt_lang tr file report w
    = (w', Ok report') ->
  let base := Py.splitext_root file in
  files w' !! audio_path folder base = None
  /\ is_Some (files w' !! srt_path folder base tgt_lang)
  /\ is_Some (files w' !! alt_srt_path folder base tgt_lang)
  /\ forall q,
       q <> audio_path folder base ->
       q <> srt_path folder base tgt_lang ->
       q <> alt_srt_path folder base tgt_lang ->
       files w' !! q = files w !! q.
Proof.
  intros H base.
  apply video_ok_effect in H as (H1 & H2 & H3 & H4 & _). done.
Qed.

(** A batch that ends normally: what it keeps, and its report. *)
Lemma batch_ok_effect (sel : list string) (report report' : Report)
    (w w' : World) :
  for_each (process_video env folder src_lang tgt_lang tr) sel report w
    = (w', Ok report') ->
  report' = (report.1 ++ sel,
             report.2 ++ map (output_pair folder tgt_lang) sel)
  /\ stdin w' = stdin w
  /\ (forall q,
        (forall f, f ∈ sel ->
           q <> audio_path folder (Py.splitext_root f)) ->
        is_Some (files w !! q) -> is_Some (files w' !! q))
  /\ (forall q,
        (forall f, f ∈ sel ->
           q <> (output_pair folder tgt_lang f).1
           /\ q <> (output_pair folder tgt_lang f).2) ->
        files w !! q = None -> files w' !! q = None)
  /\ (forall q,
        (forall f, f ∈ sel ->
           q <> audio_path folder (Py.splitext_root f)
           /\ q <> (output_pair folder tgt_lang f).1
           /\ q <> (output_pair folder tgt_lang f).2) ->
        files w' !! q = files w !! q).
Proof.
  revert report w. induction sel as [|file sel IH]; intros report w H.
  - injection H as <- <-. rewrite !app_nil_r. by destruct report.
  - cbn [for_each] in H. unfold bind in H.
    destruct (process_video _ _ _ _ _ _ _ _) as [w1 [report1|e]] eqn:Hv;
      [|discriminate].
    apply video_ok_effect in Hv as (Haud & Hsrt & Halt & Hframe & Hkeep & -> & Hin).
    apply IH in H as (-> & Hin' & Hsome & Hnone & Hsame).
    cbn [fst snd map]. rewrite <- !app_assoc. split; [done|].
    split; [congruence|]. split; [|split].
    + intros q Hq Hq0. apply Hsome.
      * intros f Hf. apply Hq. by right.
      * apply Hkeep; [|done]. apply Hq. by left.
    + intros q Hq Hq0. apply Hnone.
      * intros f Hf. apply Hq. by right.
      * destruct (decide (q = audio_path folder (Py.splitext_root file)))
          as [-> | Hne]; [done|].
        destruct (Hq file (list_elem_of_here _ _)) as [Hq1 Hq2].
        by rewrite Hframe.
    + intros q Hq. rewrite Hsame.
      * destruct (Hq file (list_elem_of_here _ _)) as (Hq1 & Hq2 & Hq3).
        by apply Hframe.
      * intros f Hf. apply Hq. by right.
Qed.

(** X11: after a batch that ended normally, both subtitle files of every
    selected video exist and the audio file of none of them does; the
    report lists the selected files in order, each with its two paths; and
    every file that is not an audio or subtitle path of a selected video
    is as it was. *)
Theorem finished_batch_leaves_subtitles_only (sel : list string)
    (report : Report) (w w' : World) :
  process_all env folder src_lang tgt_lang tr sel w = (w', Ok report) ->
  report = (sel, map (output_pair folder tgt_lang) sel)
  /\ (forall f, f ∈ sel ->
        files w' !! audio_path folder (Py.splitext_root f) = None
        /\ is_Some (files w' !! (output_pair folder tgt_lang f).1)
        /\ is_Some (files w' !! (output_pair folder tgt_lang f).2))
  /\ (forall q,
        (forall f, f ∈ sel ->
           q <> audio_path folder (Py.splitext_root f)
           /\ q <> (output_pair folder tgt_lang f).1
           /\ q <> (output_pair folder tgt_lang f).2) ->
        files w' !! q = files w !! q).
Proof.
  unfold process_all. intros H.
  pose proof (batch_ok_effect _ _ _ _ _ H) as (Hrep & _ & _ & _ & Hsame).
  split; [done|]. split; [|done]. clear Hrep Hsame.
  generalize dependent w. generalize (@nil string, @nil (string * string)).
  induction sel as [|file sel IH]; intros report0 w H f Hf;
    [by apply elem_of_nil in Hf|].
  cbn [for_each] in H. unfold bind in H.
  destruct (process_video _ _ _ _ _ _ _ _) as [w1 [report1|e]] eqn:Hv;
    [|discriminate].
  destruct (decide (f ∈ sel)) as [Hin | Hnin]; [by eapply IH|].
  apply elem_of_cons in Hf as [-> | Hf]; [|done].
  apply video_ok_effect in Hv as (Haud & Hsrt & Halt & _).
  apply batch_ok_effect in H as (_ & _ & Hsome & Hnone & _).
  split; [|split].
  - apply Hnone; [|done]. intros g _. split; apply audio_ne_any_srt.
  - apply Hsome; [|done]. intros g _. apply not_eq_sym, audio_ne_any_srt.
  - apply Hsome; [|done]. intros g _. apply not_eq_sym, audio_ne_any_srt.
Qed.

End Effects.

Lemma successful_video_touches_three_paths_witness :
  let r := process_video demo_env "/v" "it" "en" 0 "Clip1.MP4" ([], [])
             (mkWorld [] [] {["/v/Clip1.wav" := "mine"; "/v/x" := "y"]} [] 0) in
  let base := Py.splitext_root "Clip1.MP4" in
  files r.1 !! audio_path "/v" base = None
  /\ is_Some (files r.1 !! srt_path "/v" base "en")
  /\ is_Some (files r.1 !! alt_srt_path "/v" base "en")
  /\ forall q,
       q <> audio_path "/v" base ->
       q <> srt_path "/v" base "en" ->
       q <> alt_srt_path "/v" base "en" ->
       files r.1 !! q
       = files (mkWorld [] [] {["/v/Clip1.wav" := "mine"; "/v/x" := "y"]} [] 0)
           !! q.
Proof.
  intros r.
  apply (successful_video_touches_three_paths demo_env "/v" "it" "en" 0
           "Clip1.MP4" ([], [])
           (["Clip1.MP4"], [("/v/Clip1.en.srt", "/v/Clip1.eng.srt")])
           (mkWorld [] [] {["/v/Clip1.wav" := "mine"; "/v/x" := "y"]} [] 0)
           r.1).
  vm_compute. reflexivity.
Defined.

Lemma finished_batch_leaves_subtitles_only_witness :
  let sel := ["Clip1.MP4"; "Clip1.MP4"] in
  let r := process_all demo_env "/v" "it" "en" 0 sel (world0 []) in
  let report := (sel, map (output_pair "/v" "en") sel) in
  report = (sel, map (output_pair "/v" "en") sel)
  /\ (forall f, f ∈ sel ->
        files r.1 !! audio_path "/v" (Py.splitext_root f) = None
        /\ is_Some (files r.1 !! (output_pair "/v" "en" f).1)
        /\ is_Some (files r.1 !! (output_pair "/v" "en" f).2))
  /\ (forall q,
        (forall f, f ∈ sel ->
           q <> audio_path "/v" (Py.splitext_root f)
           /\ q <> (output_pair "/v" "en" f).1
           /\ q <> (output_pair "/v" "en" f).2) ->
        files r.1 !! q = files (world0 []) !! q).
Proof.
  intros sel r report.
  apply (finished_batch_leaves_subtitles_only demo_env "/v" "it" "en" 0 sel
           report (world0 []) r.1).
  vm_compute. reflexivity.
Defined.

(** ** The report and the translation loop *)

Lemma final_report_lines (report : Report) (w : World) :
  final_report report w
  = (mkWorld (stdin w) (stdout w ++ report_lines report) (files w) (events w)
       (next_handle w), Ok tt).
Proof.
  unfold final_report, report_lines.
  do 2 run_step. rewrite bind_print_all. cbn [stdin stdout files events next_handle].
  run_step. rewrite bind_print_all. cbn [stdin stdout files events next_handle].
  unfold print. cbn [stdin stdout files events next_handle].
  by rewrite <- !app_assoc.
Qed.

Lemma batch_stdout (env : Env) (folder src_lang tgt_lang : string) (tr : nat)
    (sel : list string) (report : Report) (w w' : World)
    (o : Outcome Report) :
  for_each (process_video env folder src_lang tgt_lang tr) sel report w
    = (w', o) ->
  exists out, stdout w' = stdout w ++ out.
Proof.
  revert report w. induction sel as [|file sel IH]; intros report w H.
  - injection H as <- <-. exists []. by rewrite app_nil_r.
  - cbn [for_each] in H. unfold bind in H.
    destruct (process_video _ _ _ _ _ _ _ _) as [w1 o1] eqn:Hv.
    apply process_video_run in Hv as (out & fs & evs & nh & -> & _).
    destruct o1 as [report1|e].
    + apply IH in H as [out' ->]. cbn [stdout]. exists (out ++ out').
      by rewrite app_assoc.
    + injection H as <- <-. by exists out.
Qed.

(** X12: when the part of [main] after the dialogue ends normally, the
    last lines it printed are the report: the selected files, one line per
    occurrence and in the order selected, then for each of them one line
    naming its two subtitle paths. *)
Theorem normal_end_prints_selection_report (env : Env)
    (folder src_lang tgt_lang : string) (sel : list string) (w w' : World) :
  back_end env folder sel src_lang tgt_lang w = (w', Ok tt) ->
  exists progress,
    stdout w'
    = stdout w ++ progress
        ++ report_lines (sel, map (output_pair folder tgt_lang) sel).
Proof.
  unfold back_end, init_translator. do 2 run_step.
  destruct (pipeline_ok env).
  2:{ do 4 run_step. discriminate. }
  run_step. unfold process_all, bind.
  destruct (for_each _ sel _ _) as [w1 [report|e]] eqn:Hb; [|discriminate].
  pose proof (batch_stdout _ _ _ _ _ _ _ _ _ _ Hb) as [out Hout].
  apply batch_ok_effect in Hb as (-> & _). cbn [fst snd app stdout] in *.
  rewrite final_report_lines. intros [= <-]. cbn [stdout].
  exists out. by rewrite Hout, <- app_assoc.
Qed.

Lemma normal_end_prints_selection_report_witness :
  let sel := ["Clip1.MP4"; "Clip1.MP4"] in
  let r := back_end demo_env "/v" sel "it" "en" (world0 []) in
  exists progress,
    stdout r.1
    = stdout (world0 []) ++ progress
        ++ report_lines (sel, map (output_pair "/v" "en") sel).
Proof.
  intros sel r.
  apply (normal_end_prints_selection_report demo_env "/v" "it" "en" sel
           (world0 []) r.1).
  vm_compute. reflexivity.
Defined.

Lemma translate_loop_ok (env : Env) (src_lang tgt_lang : string) (tr : nat)
    (segs done : list Segment) (w : World) :
  Forall (fun s => is_Some
            (translator env (Py.strip (seg_text s)) src_lang tgt_lang)) segs ->
  exists out,
    for_each (translate_segment env src_lang tgt_lang tr) segs done w
    = (add_events (translate_events src_lang tgt_lang tr segs) w,
       Ok (done ++ out)).
Proof.
  intros H. revert done w. induction H as [|s segs [t Ht] _ IH]; intros done w.
  - exists []. cbn [for_each translate_events map]. unfold ret.
    by rewrite add_events_nil, app_nil_r.
  - destruct (IH (done ++ [mkSegment (seg_start s) (seg_end s) t])
                (mkWorld (stdin w) (stdout w) (files w)
                   (events w ++ [EvTranslate tr (Py.strip (seg_text s))
                                   src_lang tgt_lang]) (next_handle w)))
      as [out Hout].
    exists (mkSegment (seg_start s) (seg_end s) t :: out).
    cbn [for_each]. unfold translate_segment at 1, translate_text.
    run_step. rewrite Ht. do 2 run_step. rewrite Hout.
    unfold add_events. cbn [stdin stdout files events next_handle
                             translate_events map].
    by rewrite <- !app_assoc.
Qed.

(** X13: the translation loop stops at the first segment the translator
    rejects: the segments before it were each sent once, in order, the
    rejected one was sent once, none of the later segments is sent, and
    [TranslatorError] leaves the loop. *)
Theorem translation_stops_at_first_failure (env : Env)
    (src_lang tgt_lang : string) (tr : nat) (pre rest : list Segment)
    (s : Segment) (w : World) :
  Forall (fun x => is_Some
            (translator env (Py.strip (seg_text x)) src_lang tgt_lang)) pre ->
  translator env (Py.strip (seg_text s)) src_lang tgt_lang = None ->
  translate_segments env src_lang tgt_lang tr (pre ++ s :: rest) w
  = (add_events (translate_events src_lang tgt_lang tr (pre ++ [s])) w,
     Raise TranslatorError).
Proof.
  intros Hpre Hs. unfold translate_segments. rewrite for_each_app.
  unfold bind at 1.
  destruct (translate_loop_ok env src_lang tgt_lang tr pre [] w Hpre)
    as [out ->].
  cbn [for_each]. unfold translate_segment at 1, translate_text.
  run_step. rewrite Hs. run_step. unfold add_events, translate_events.
  cbn [stdin stdout files events next_handle]. rewrite map_app.
  by rewrite <- !app_assoc.
Qed.

Lemma translation_stops_at_first_failure_witness :
  translate_segments demo_env_one_phrase "it" "en" 0
    ([mkSegment 0 (5 # 2) " Ciao "] ++ mkSegment (5 # 2) 5 "come stai"
       :: [mkSegment 5 6 "Ciao"]) (world0 [])
  = (add_events
       (translate_events "it" "en" 0
          ([mkSegment 0 (5 # 2) " Ciao "] ++ [mkSegment (5 # 2) 5 "come stai"]))
       (world0 []),
     Raise TranslatorError).
Proof.
  apply (translation_stops_at_first_failure demo_env_one_phrase "it" "en" 0
           [mkSegment 0 (5 # 2) " Ciao "] [mkSegment 5 6 "Ciao"]
           (mkSegment (5 # 2) 5 "come stai") (world0 [])).
  - repeat constructor. by exists "Hello".
  - reflexivity.
Defined.

(** ** Base names *)

Lemma lacks_append (c : ascii) (a b : string) :
  lacks c (a +:+ b) = lacks c a && lacks c b.
Proof.
  induction a as [|x a IH]; [done|].
  rewrite append_cons. cbn [lacks]. by rewrite IH, andb_assoc.
Qed.

Lemma rfind_from_lacks (c : ascii) (s : string) (i last : Z) :
  lacks c s = true -> Py.rfind_from i c s last = last.
Proof.
  revert i last. induction s as [|x s IH]; intros i last; [done|].
  cbn [lacks Py.rfind_from]. intros [Hx Hs]%andb_true_iff.
  apply negb_true_iff in Hx. rewrite Hx. by apply IH.
Qed.

Lemma rfind_from_last (c : ascii) (a b : string) (i last : Z) :
  lacks c b = true ->
  Py.rfind_from i c (a +:+ String c b) last = (i + Z.of_nat (String.length a))%Z.
Proof.
  intros Hb. revert i last. induction a as [|x a IH]; intros i last.
  - rewrite append_nil_l. cbn [Py.rfind_from]. rewrite Ascii.eqb_refl.
    rewrite rfind_from_lacks by done. simpl. lia.
  - rewrite append_cons. cbn [Py.rfind_from]. rewrite IH.
    cbn [String.length]. lia.
Qed.

Lemma substring_prefix (a b : string) :
  String.substring 0 (String.length a) (a +:+ b) = a.
Proof.
  induction a as [|x a IH]; [by destruct b|].
  rewrite append_cons. cbn [String.length String.substring]. by rewrite IH.
Qed.

Lemma substring_char_at (pre t : string) (x : ascii) :
  String.substring (String.length pre) 1 (pre +:+ String x t)
  = String x EmptyString.
Proof.
  induction pre as [|y pre IH].
  - rewrite append_nil_l. cbn [String.length String.substring]. by destruct t.
  - rewrite append_cons. cbn [String.length String.substring]. exact IH.
Qed.

Lemma has_non_dot_spec (pre a rest : string) :
  Py.has_non_dot (String.length a) (pre +:+ a +:+ rest)
    (Z.of_nat (String.length pre))
  = negb (all_char "." a).
Proof.
  revert pre. induction a as [|x a IH]; intros pre; [done|].
  cbn [String.length Py.has_non_dot all_char]. unfold Py.slice.
  rewrite Nat2Z.id.
  replace (Z.to_nat (Z.of_nat (String.length pre) + 1
                     - Z.of_nat (String.length pre))) with 1%nat by lia.
  rewrite append_cons, substring_char_at.
  cbn [String.eqb]. destruct (Ascii.eqb x ".") eqn:Hx; cbn [negb andb]; [|done].
  specialize (IH (pre +:+ String x EmptyString)).
  rewrite length_append in IH. cbn [String.length] in IH.
  rewrite append_assoc in IH. rewrite append_cons, append_nil_l in IH.
  replace (Z.of_nat (String.length pre) + 1)%Z
    with (Z.of_nat (String.length pre + 1)) by lia.
  exact IH.
Qed.

(** The root [os.path.splitext] gives for a name without directory part
    whose last dot is followed by [ext]. *)
Lemma splitext_root_stem (stem ext : string) :
  lacks "/" stem = true -> lacks "." ext = true -> lacks "/" ext = true ->
  Py.splitext_root (stem +:+ String "." ext)
  = if all_char "." stem then stem +:+ String "." ext else stem.
Proof.
  intros Hs He1 He2. unfold Py.splitext_root, Py.rfind.
  rewrite (rfind_from_lacks "/") by
    (rewrite lacks_append, Hs; cbn [lacks]; by rewrite He2).
  rewrite rfind_from_last by done.
  replace (0 + Z.of_nat (String.length stem) - (-1 + 1))%Z
    with (Z.of_nat (String.length stem)) by lia.
  rewrite Nat2Z.id.
  pose proof (has_non_dot_spec EmptyString stem (String "." ext)) as Hnd.
  rewrite append_nil_l in Hnd.
  change (Z.of_nat (String.length EmptyString)) with 0%Z in Hnd.
  replace (-1 + 1)%Z with 0%Z by lia. rewrite Hnd.
  replace (-1 <? 0 + Z.of_nat (String.length stem))%Z with true
    by (symmetry; apply Z.ltb_lt; lia).
  cbn [andb]. destruct (all_char "." stem); cbn [negb]; [done|].
  unfold Py.slice. cbn [Z.to_nat].
  replace (Z.to_nat (0 + Z.of_nat (String.length stem) - 0))
    with (String.length stem) by lia.
  apply substring_prefix.
Qed.

(** X14: for a listed video whose name holds no path separator, the base
    name used for the audio and subtitle files is the name without its
    four-character extension; only a name that is nothing but dots before
    the extension (such as [.mp4]) is kept whole. *)
Theorem base_name_of_listed_video (f : string) :
  is_mp4_name f ->
  lacks "/" f = true ->
  exists stem ext,
    f = stem +:+ ext /\ String.length ext = 4%nat
    /\ Py.splitext_root f = if all_char "." stem then f else stem.
Proof.
  intros (stem & c1 & c2 & -> & H1 & H2) Hsep.
  exists stem, (String "." (String c1 (String c2 "4"))).
  split; [done|]. split; [done|].
  rewrite lacks_append in Hsep. apply andb_true_iff in Hsep as [Hs _].
  apply splitext_root_stem; [done|..];
    destruct H1 as [-> | ->], H2 as [-> | ->]; reflexivity.
Qed.

Lemma base_name_of_listed_video_witness :
  exists stem ext,
    "my.clip.MP4" = stem +:+ ext /\ String.length ext = 4%nat
    /\ Py.splitext_root "my.clip.MP4"
       = if all_char "." stem then "my.clip.MP4" else stem.
Proof.
  apply (base_name_of_listed_video "my.clip.MP4").
  - exists "my.clip", "M"%char, "P"%char. split; [reflexivity|].
    split; [by right | by right].
  - reflexivity.
Defined.

(** ** Reversal and stripping *)

Lemma rev_app_rev_app (s a b : string) :
  String.rev_app (String.rev_app s a) b = String.rev_app a (s +:+ b).
Proof.
  revert a b. induction s as [|x s IH]; intros a b; [done|].
  cbn [String.rev_app]. rewrite IH. by rewrite append_cons.
Qed.

Lemma rev_involutive (s : string) : String.rev (String.rev s) = s.
Proof.
  unfold String.rev. rewrite rev_app_rev_app. cbn [String.rev_app].
  apply append_nil_r.
Qed.

Lemma rev_app_append (s a : string) :
  String.rev_app s a = String.rev s +:+ a.
Proof.
  unfold String.rev. revert a. induction s as [|x s IH]; intros a; [done|].
  cbn [String.rev_app]. rewrite IH, (IH (String x EmptyString)).
  by rewrite append_assoc.
Qed.

Lemma rev_cons (c : ascii) (s : string) :
  String.rev (String c s) = String.rev s +:+ String c EmptyString.
Proof. unfold String.rev at 1. cbn [String.rev_app]. apply rev_app_append. Qed.

Lemma rev_append (a b : string) :
  String.rev (a +:+ b) = String.rev b +:+ String.rev a.
Proof.
  induction a as [|x a IH].
  - rewrite append_nil_l. symmetry. apply append_nil_r.
  - rewrite append_cons, !rev_cons, IH. by rewrite append_assoc.
Qed.

Lemma no_space_append (a b : string) :
  no_space (a +:+ b) = no_space a && no_space b.
Proof.
  induction a as [|x a IH]; [done|].
  rewrite append_cons. cbn [no_space]. by rewrite IH, andb_assoc.
Qed.

Lemma no_space_rev (s : string) : no_space (String.rev s) = no_space s.
Proof.
  induction s as [|x s IH]; [done|].
  rewrite rev_cons, no_space_append, IH. cbn [no_space].
  rewrite andb_true_r. apply andb_comm.
Qed.

Lemma lstrip_no_space (s : string) : no_space s = true -> Py.lstrip s = s.
Proof.
  destruct s as [|c s]; [done|]. cbn [no_space Py.lstrip].
  intros [Hc _]%andb_true_iff. apply negb_true_iff in Hc. by rewrite Hc.
Qed.

Lemma strip_no_space (s : string) : no_space s = true -> Py.strip s = s.
Proof.
  intros H. unfold Py.strip, Py.rstrip. rewrite (lstrip_no_space s H).
  rewrite lstrip_no_space by (by rewrite no_space_rev).
  apply rev_involutive.
Qed.

Lemma split_go_no_space (s : string) (cur : option string) :
  no_space s = true ->
  Py.split_go cur s
  = match s, cur with
    | EmptyString, None => []
    | _, _ => [String.rev (String.rev_app s (default EmptyString cur))]
    end.
Proof.
  revert cur. induction s as [|c s IH]; intros cur Hs.
  - by destruct cur.
  - cbn [no_space] in Hs. apply andb_true_iff in Hs as [Hc Hs].
    apply negb_true_iff in Hc. cbn [Py.split_go]. rewrite Hc.
    rewrite IH by done. by destruct s.
Qed.

Lemma split_no_space (s : string) :
  no_space s = true -> s <> EmptyString -> Py.split s = [s].
Proof.
  intros Hs Hne. unfold Py.split. rewrite split_go_no_space by done.
  destruct s as [|c s]; [done|]. cbn [default].
  fold (String.rev (String c s)). by rewrite rev_involutive.
Qed.

(** ** Numbers shown and numbers read *)

Lemma digit_no_space (c : ascii) :
  is_Some (Py.digit_of c) -> Py.isspace c = false.
Proof.
  destruct c as [[] [] [] [] [] [] [] []]; vm_compute;
    first [reflexivity | intros [d H]; discriminate H].
Qed.

Lemma digit_no_sign (c : ascii) :
  is_Some (Py.digit_of c) -> c <> "+"%char /\ c <> "-"%char.
Proof.
  destruct c as [[] [] [] [] [] [] [] []]; vm_compute;
    first [by split | intros [d H]; discriminate H].
Qed.

Lemma all_digits_no_space (s : string) :
  all_digits s = true -> no_space s = true.
Proof.
  induction s as [|c s IH]; [done|]. cbn [all_digits no_space].
  intros [Hc Hs]%andb_true_iff. rewrite IH by done.
  rewrite digit_no_space; [done|]. by destruct (Py.digit_of c).
Qed.

Lemma all_digits_uint (d : Decimal.uint) :
  all_digits (NilEmpty.string_of_uint d) = true.
Proof. induction d; cbn [NilEmpty.string_of_uint all_digits]; done. Qed.

Lemma str_of_nat_digits (n : nat) :
  all_digits (str_of_nat n) = true /\ str_of_nat n <> EmptyString.
Proof.
  unfold str_of_nat, NilZero.string_of_uint.
  destruct (Nat.to_uint n) eqn:E; try done;
    (split; [rewrite <- E at 1; rewrite E; apply all_digits_uint | done]).
Qed.

Lemma int_digits_uint (d : Decimal.uint) (a : nat) (b : bool) :
  Py.int_digits (NilEmpty.string_of_uint d) (Z.of_nat a) b
  = match d with
    | Decimal.Nil => if b then Some (Z.of_nat a) else None
    | _ => Some (Z.of_nat (Nat.of_uint_acc d a))
    end.
Proof.
  revert a b.
  induction d as [|d IH|d IH|d IH|d IH|d IH|d IH|d IH|d IH|d IH|d IH];
    intros a b; [done|..];
    cbn [NilEmpty.string_of_uint Py.int_digits Nat.of_uint_acc];
    rewrite Nat.tail_mul_spec;
    match goal with
    | |- context [Py.digit_of ?c] =>
        let v := eval vm_compute in (Py.digit_of c) in
        change (Py.digit_of c) with v
    end;
    cbv iota beta;
    match goal with
    | |- Py.int_digits _ ?z true = Some (Z.of_nat (Nat.of_uint_acc _ ?m)) =>
        replace z with (Z.of_nat m) by lia
    end;
    rewrite IH; by destruct d.
Qed.

Lemma int_str_of_nat (n : nat) : Py.int (str_of_nat n) = Some (Z.of_nat n).
Proof.
  destruct (str_of_nat_digits n) as [Hd Hne]. unfold Py.int.
  rewrite strip_no_space by (by apply all_digits_no_space).
  assert (Py.int_digits (str_of_nat n) 0 false = Some (Z.of_nat n)) as Hint.
  { unfold str_of_nat, NilZero.string_of_uint.
    pose proof (DecimalNat.Unsigned.of_to n) as Hof. unfold Nat.of_uint in Hof.
    destruct (Nat.to_uint n) eqn:E;
      [by vm_compute in Hof; subst n|..];
      rewrite <- E in *; change 0%Z with (Z.of_nat 0);
      rewrite int_digits_uint, Hof; rewrite E; done. }
  destruct (str_of_nat n) as [|c s] eqn:E; [done|].
  cbn [all_digits] in Hd. apply andb_true_iff in Hd as [Hc _].
  destruct (digit_no_sign c) as [Hp Hm]; [by destruct (Py.digit_of c)|].
  destruct c as [[] [] [] [] [] [] [] []]; try done.
Qed.

Lemma lookup_listing_lines (idx : nat) (fs : list string) (k : nat) :
  listing_lines idx fs !! k
  = (fun f => str_of_nat (idx + k) +:+ ". " +:+ f) <$> fs !! k.
Proof.
  revert idx k. induction fs as [|f fs IH]; intros idx k; [done|].
  destruct k as [|k]; cbn [listing_lines lookup list_lookup fmap option_fmap option_map].
  - simpl. by rewrite Nat.add_0_r.
  - rewrite IH. by replace (S idx + k)%nat with (idx + S k)%nat by lia.
Qed.

(** X16: the number the listing shows in front of a file is the number
    that selects it: for the file at position [k] the listing prints
    [k + 1], and a selection line made of that number is accepted and
    selects exactly that file. *)
Theorem listed_number_selects_its_file (video_files : list string) (k : nat)
    (f : string) :
  video_files !! k = Some f ->
  listing_lines 1 video_files !! k
  = Some (str_of_nat (S k) +:+ ". " +:+ f)
  /\ (forall rest,
        selection_loop (length video_files) (str_of_nat (S k) :: rest)
        = (Ok [Z.of_nat (S k)], rest, [select_prompt]))
  /\ select_files video_files [Z.of_nat (S k)] = Some [f].
Proof.
  intros Hk. pose proof (lookup_lt_Some _ _ _ Hk) as Hlt.
  split; [by rewrite lookup_listing_lines, Hk|].
  assert (in_range (length video_files) (Z.of_nat (S k))) as Hr
    by (unfold in_range; lia).
  split.
  - intros rest. apply selection_loop_first;
      [|apply Forall_cons_2; [done | apply Forall_nil_2]].
    destruct (str_of_nat_digits (S k)) as [Hd Hne].
    rewrite strip_no_space by (by apply all_digits_no_space).
    rewrite split_no_space by (by try apply all_digits_no_space).
    cbn [mapM]. by rewrite int_str_of_nat.
  - unfold select_files. cbn [mapM]. rewrite index_in_range by done.
    replace (Z.to_nat (Z.of_nat (S k) - 1)) with k by lia. by rewrite Hk.
Qed.

Lemma listed_number_selects_its_file_witness :
  listing_lines 1 ["a.mp4"; "b.mp4"] !! 1%nat
  = Some (str_of_nat 2 +:+ ". " +:+ "b.mp4")
  /\ (forall rest,
        selection_loop (length ["a.mp4"; "b.mp4"]) (str_of_nat 2 :: rest)
        = (Ok [Z.of_nat 2], rest, [select_prompt]))
  /\ select_files ["a.mp4"; "b.mp4"] [Z.of_nat 2] = Some ["b.mp4"].
Proof.
  apply (listed_number_selects_its_file ["a.mp4"; "b.mp4"] 1 "b.mp4").
  reflexivity.
Defined.

(** ** The folder line *)

Lemma last_char_quoted (q : ascii) (p : string) :
  last_char (quoted q p) = Some q.
Proof.
  unfold last_char, quoted. rewrite rev_cons, rev_append.
  change (String.rev (String q EmptyString)) with (String q EmptyString).
  by rewrite !append_cons.
Qed.

Lemma lstrip_char_other (c : ascii) (s : string) :
  first_char s <> Some c -> Py.lstrip_char c s = s.
Proof.
  destruct s as [|x s]; [done|]. cbn [first_char Py.lstrip_char].
  intros H. destruct (Ascii.eqb x c) eqn:E; [|done].
  apply Ascii.eqb_eq in E. congruence.
Qed.

Lemma strip_char_other (c : ascii) (s : string) :
  first_char s <> Some c -> last_char s <> Some c -> Py.strip_char c s = s.
Proof.
  intros Hf Hl. unfold Py.strip_char.
  rewrite (lstrip_char_other c s Hf), lstrip_char_other by done.
  apply rev_involutive.
Qed.

Lemma strip_char_quoted (q : ascii) (p : string) :
  first_char p <> Some q -> last_char p <> Some q ->
  Py.strip_char q (quoted q p) = p.
Proof.
  intros Hf Hl. unfold Py.strip_char, quoted.
  cbn [Py.lstrip_char]. rewrite Ascii.eqb_refl.
  destruct p as [|x p].
  - rewrite append_nil_l. cbn [Py.lstrip_char]. by rewrite Ascii.eqb_refl.
  - rewrite (lstrip_char_other q (String x p +:+ String q EmptyString))
      by (rewrite append_cons; exact Hf).
    rewrite rev_append.
    change (String.rev (String q EmptyString)) with (String q EmptyString).
    rewrite append_cons, append_nil_l.
    cbn [Py.lstrip_char]. rewrite Ascii.eqb_refl.
    rewrite lstrip_char_other by done. apply rev_involutive.
Qed.

Lemma blank_append (a b : string) : blank (a +:+ b) = blank a && blank b.
Proof.
  induction a as [|x a IH]; [done|].
  rewrite append_cons. cbn [blank]. by rewrite IH, andb_assoc.
Qed.

Lemma blank_rev (s : string) : blank (String.rev s) = blank s.
Proof.
  induction s as [|x s IH]; [done|].
  rewrite rev_cons, blank_append, IH. cbn [blank].
  rewrite andb_true_r. apply andb_comm.
Qed.

Lemma lstrip_padded (a s : string) :
  blank a = true -> Py.lstrip (a +:+ s) = Py.lstrip s.
Proof.
  induction a as [|x a IH]; [done|]. cbn [blank].
  intros [Hx Ha]%andb_true_iff. rewrite append_cons. cbn [Py.lstrip].
  rewrite Hx. by apply IH.
Qed.

Lemma lstrip_first (s : string) :
  (forall c, first_char s = Some c -> Py.isspace c = false) ->
  Py.lstrip s = s.
Proof.
  destruct s as [|x s]; [done|]. intros H. cbn [Py.lstrip].
  by rewrite (H x eq_refl).
Qed.

Lemma strip_padded (a b s : string) :
  blank a = true -> blank b = true ->
  (forall c, first_char s = Some c \/ last_char s = Some c ->
     Py.isspace c = false) ->
  Py.strip (a +:+ s +:+ b) = s.
Proof.
  intros Ha Hb Hs. unfold Py.strip, Py.rstrip. rewrite lstrip_padded by done.
  destruct s as [|x s].
  - rewrite append_nil_l, (lstrip_blank b Hb). done.
  - rewrite (lstrip_first (String x s +:+ b))
      by (rewrite append_cons; intros c [= <-]; apply Hs; by left).
    rewrite rev_append, lstrip_padded by (by rewrite blank_rev).
    rewrite lstrip_first by (intros c Hc; apply Hs; by right).
    apply rev_involutive.
Qed.

(** X17: the folder is the first input line without the white space
    around it and without one layer of quotes of one kind: a bare path, a
    path in double quotes and a path in single quotes all name the same
    folder, and so does a path in single quotes inside double quotes. A
    path in double quotes inside single quotes keeps its double quotes,
    because the double quotes are stripped first. *)
Theorem folder_of_strips_quotes (p a b : string) :
  plain p -> blank a = true -> blank b = true ->
  folder_of (a +:+ p +:+ b) = p
  /\ folder_of (a +:+ quoted dquote p +:+ b) = p
  /\ folder_of (a +:+ quoted squote p +:+ b) = p
  /\ folder_of (a +:+ quoted dquote (quoted squote p) +:+ b) = p
  /\ folder_of (a +:+ quoted squote (quoted dquote p) +:+ b)
     = quoted dquote p.
Proof.
  intros Hp Ha Hb. unfold folder_of.
  assert (first_char p <> Some dquote /\ last_char p <> Some dquote
          /\ first_char p <> Some squote /\ last_char p <> Some squote)
    as (Hfd & Hld & Hfs & Hls).
  { repeat split; intros H;
      [destruct (Hp dquote (or_introl H)) as (_ & ? & _)
      |destruct (Hp dquote (or_intror H)) as (_ & ? & _)
      |destruct (Hp squote (or_introl H)) as (_ & _ & ?)
      |destruct (Hp squote (or_intror H)) as (_ & _ & ?)]; done. }
  assert (forall q s, Py.isspace q = false ->
            forall c, first_char (quoted q s) = Some c
                      \/ last_char (quoted q s) = Some c ->
                      Py.isspace c = false) as Hq.
  { intros q s Hsp c [H | H].
    - injection H as <-. done.
    - rewrite last_char_quoted in H. injection H as <-. done. }
  repeat split.
  - rewrite strip_padded by (try done; intros c Hc; by apply Hp).
    rewrite (strip_char_other dquote p) by done.
    by rewrite (strip_char_other squote p).
  - rewrite strip_padded by (try done; by apply Hq).
    rewrite (strip_char_quoted dquote p) by done.
    by rewrite (strip_char_other squote p).
  - rewrite strip_padded by (try done; by apply Hq).
    rewrite (strip_char_other dquote (quoted squote p))
      by (try rewrite last_char_quoted; discriminate).
    by rewrite (strip_char_quoted squote p).
  - rewrite strip_padded by (try done; by apply Hq).
    rewrite (strip_char_quoted dquote (quoted squote p))
      by (try rewrite last_char_quoted; discriminate).
    by rewrite (strip_char_quoted squote p).
  - rewrite strip_padded by (try done; by apply Hq).
    rewrite (strip_char_other dquote (quoted squote (quoted dquote p)))
      by (try rewrite last_char_quoted; discriminate).
    by rewrite (strip_char_quoted squote (quoted dquote p))
      by (try rewrite last_char_quoted; discriminate).
Qed.

Lemma folder_of_strips_quotes_witness :
  folder_of (" " +:+ "/v" +:+ "  ") = "/v"
  /\ folder_of (" " +:+ quoted dquote "/v" +:+ "  ") = "/v"
  /\ folder_of (" " +:+ quoted squote "/v" +:+ "  ") = "/v"
  /\ folder_of (" " +:+ quoted dquote (quoted squote "/v") +:+ "  ") = "/v"
  /\ folder_of (" " +:+ quoted squote (quoted dquote "/v") +:+ "  ")
     = quoted dquote "/v".
Proof.
  apply (folder_of_strips_quotes "/v" " " "  ").
  - intros c [H | H]; vm_compute in H; injection H as <-;
      (split; [reflexivity | split; discriminate]).
  - reflexivity.
  - reflexivity.
Defined.

(** ** A write that fails *)


